(** * Persistence models: walk-forward evaluation of naive forecasters

    Shallow embedding of [model_persistence.py].

    Modelling decisions.
    - A pandas [DataFrame] is a record of its column labels and its rows in
      storage order; a row ([Series] taken along axis 0) is its label
      together with its cell values.  Cells are aligned by position: every
      table of the program carries the same 24 hour columns.
    - A calendar day (a [Timestamp] of a daily index, a [datetime], the
      string ['%Y-%m-%d'] naming it) is its proleptic Gregorian ordinal, an
      integer; [timedelta(days=k)] adds [k].  A [Timestamp] holds the days
      1677-09-22 to 2262-04-11 only, and arithmetic that leaves them raises.
    - A float cell is a real number or [NaN], and arithmetic on cells is
      exact.  Where a theorem names a value the code returns, it is one
      that doubles compute exactly (0, 1, a cell copied or divided by 1);
      what a mean or a root rounds to is left to the libraries that
      compute it.
    - A Python exception is a value of [exn]; a call that may raise returns
      a [result].
    - [DataFrame.append] is the pandas method of that name: it builds and
      returns a new frame and leaves its receiver as it was. *)

From Stdlib Require Import ZArith List Reals Lra Lia.
From stdpp Require Import strings pretty gmap.

Local Open Scope Z_scope.

(** ** Exceptions and fallible calls *)

Inductive exn : Type :=
| KeyError (label : Z)
| IndexError
| ValueError
| OutOfBoundsDatetime.

Inductive result (A : Type) : Type :=
| Ok (a : A)
| Raise (e : exn).

Arguments Ok {A} a.
Arguments Raise {A} e.

Definition bind {A B : Type} (c : result A) (k : A -> result B) : result B :=
  match c with
  | Ok a => k a
  | Raise e => Raise e
  end.

Notation "x <- c ;; k" := (bind c (fun x => k))
  (at level 100, c at next level, right associativity).

(** [[f x for x in l]] where [f] may raise: the first failure ends it. *)
Fixpoint mapM {A B : Type} (f : A -> result B) (l : list A) : result (list B) :=
  match l with
  | [] => Ok []
  | x :: l' => y <- f x ;; ys <- mapM f l' ;; Ok (y :: ys)
  end.

(** ** Tables *)

Abbreviation date := Z (only parsing).

Inductive float64 : Type :=
| Num (x : R)
| NaN.

Abbreviation Series L A := (L * list A)%type (only parsing).

Record Frame (L A : Type) : Type := mkFrame {
  columns : list string;
  body : list (Series L A)
}.

Arguments mkFrame {L A} columns body.
Arguments columns {L A} f.
Arguments body {L A} f.

Abbreviation DataFrame := (Frame Z float64) (only parsing).

Section FrameOps.
Context {L A : Type}.

Definition index (f : Frame L A) : list L := map fst (body f).
Definition values (f : Frame L A) : list (list A) := map snd (body f).

(** [f.shape[0]] and [f.shape[1]] *)
Definition shape0 (f : Frame L A) : nat := length (body f).
Definition shape1 (f : Frame L A) : nat := length (columns f).

(** Every row has one cell per column. *)
Definition well_formed (f : Frame L A) : bool :=
  forallb (fun r => Nat.eqb (length (snd r)) (shape1 f)) (body f).

(** [f.copy()] *)
Definition copy (f : Frame L A) : Frame L A :=
  mkFrame (columns f) (body f).

(** [f.append(s)]: a new frame, the rows of [f] followed by [s]. *)
Definition append (f : Frame L A) (s : Series L A) : Frame L A :=
  mkFrame (columns f) (body f ++ [s]).

(** Python position [i] in a sequence of [n] items: negative positions
    count from the end. *)
Definition position (n : nat) (i : Z) : result nat :=
  let k := if i <? 0 then i + Z.of_nat n else i in
  if (k <? 0) || (Z.of_nat n <=? k) then Raise IndexError
  else Ok (Z.to_nat k).

(** [f.iloc[i,:]] *)
Definition iloc_row (f : Frame L A) (i : Z) : result (Series L A) :=
  k <- position (shape0 f) i ;;
  match nth_error (body f) k with
  | Some r => Ok r
  | None => Raise IndexError
  end.

(** [f.index[-1]] *)
Definition index_last (f : Frame L A) : result L :=
  k <- position (length (index f)) (-1) ;;
  match nth_error (index f) k with
  | Some d => Ok d
  | None => Raise IndexError
  end.

(** [pd.DataFrame(rows, index=idx, columns=cols)] *)
Definition frame_of_rows (rows : list (list A)) (idx : list L)
    (cols : list string) : result (Frame L A) :=
  if Nat.eqb (length rows) (length idx)
     && forallb (fun r => Nat.eqb (length r) (length cols)) rows
  then Ok (mkFrame cols (combine idx rows))
  else Raise ValueError.
End FrameOps.

(** [f.iloc[:,j]] on a table of floats (a missing cell reads as NaN). *)
Definition iloc_col {L : Type} (f : Frame L float64) (j : nat)
    : result (list float64) :=
  if Nat.ltb j (shape1 f) then Ok (map (fun r => nth j (snd r) NaN) (body f))
  else Raise IndexError.

(** *** Label-based access on a date index *)

(** [idx.searchsorted(x, side='right')] and [side='left'] on an index in
    chronological order: the number of leading labels [<= x], resp. [< x]. *)
Fixpoint searchsorted_right (idx : list date) (x : date) : nat :=
  match idx with
  | [] => O
  | d :: idx' => if d <=? x then S (searchsorted_right idx' x) else O
  end.

Fixpoint searchsorted_left (idx : list date) (x : date) : nat :=
  match idx with
  | [] => O
  | d :: idx' => if d <? x then S (searchsorted_left idx' x) else O
  end.

(** [idx.is_monotonic_increasing] *)
Fixpoint is_monotonic_increasing (idx : list date) : bool :=
  match idx with
  | [] => true
  | d :: idx' =>
      match idx' with
      | [] => true
      | d' :: _ => (d <=? d') && is_monotonic_increasing idx'
      end
  end.

(** [idx.is_unique] *)
Fixpoint is_unique (idx : list date) : bool :=
  match idx with
  | [] => true
  | d :: idx' => negb (existsb (Z.eqb d) idx') && is_unique idx'
  end.

Section DateFrames.
Context {A : Type}.

(** [data[:stop]], both ends of a label slice are inclusive. *)
Definition slice_to (data : Frame date A) (stop : date) : Frame date A :=
  mkFrame (columns data)
          (firstn (searchsorted_right (index data) stop) (body data)).

(** [data[start:]] *)
Definition slice_from (data : Frame date A) (start : date) : Frame date A :=
  mkFrame (columns data)
          (skipn (searchsorted_left (index data) start) (body data)).

(** [f.loc[d,:]] on an index whose labels are unique: the one row that
    carries the label.  On a repeated label pandas selects a frame of all
    its rows, not a row; every statement about a row found assumes
    [is_unique]. *)
Definition loc (f : Frame date A) (d : date) : result (Series date A) :=
  match find (fun r => Z.eqb (fst r) d) (body f) with
  | Some r => Ok r
  | None => Raise (KeyError d)
  end.

(** [dt.datetime.strptime(s, '%Y-%m-%d')]: a day is already its ordinal. *)
Definition strptime (s : date) : date := s.

Definition train_test_split (data : Frame date A) (split_date : date)
    : Frame date A * Frame date A :=
  let train := slice_to data split_date in
  let split_date := strptime split_date in
  let split_date := split_date + 1 in
  let test := slice_from data split_date in
  (train, test).

(** *** Persistence strategies that copy a row *)

Definition day_hbh_persistence (history : Frame date A) (days : Z)
    : result (Series date A) :=
  iloc_row history (- days).

Definition days_default : Z := 1.

(** The first and the last day a [Timestamp] holds: 1677-09-22 and
    2262-04-11. *)
Definition timestamp_min_day : date := 612412.
Definition timestamp_max_day : date := 825914.

(** [t + dt.timedelta(days=k)] on a [Timestamp]: a day out of its range
    raises [OutOfBoundsDatetime] (a [ValueError]). *)
Definition timestamp_add (t : date) (k : Z) : result date :=
  if (t + k <? timestamp_min_day) || (timestamp_max_day <? t + k)
  then Raise OutOfBoundsDatetime
  else Ok (t + k).

Definition same_day_oya_persistence (history : Frame date A)
    : result (Series date A) :=
  day_oya <- index_last history ;;
  day_oya <- timestamp_add day_oya (-365) ;;
  prediction <- loc history day_oya ;;
  Ok prediction.
End DateFrames.

(** ** Numerics *)

Definition fsum (xs : list R) : R := fold_right Rplus 0%R xs.

(** The observations of a list of cells: its non-NaN values, in order. *)
Definition observations (cells : list float64) : list R :=
  flat_map (fun c => match c with Num x => [x] | NaN => [] end) cells.

Definition has_nan (cells : list float64) : bool :=
  existsb (fun c => match c with Num _ => false | NaN => true end) cells.

(** The number a cell holds (0 for NaN, which no statement below reads). *)
Definition value (c : float64) : R :=
  match c with Num x => x | NaN => 0%R end.

Definition arithmetic_mean (xs : list R) : R := (fsum xs / INR (length xs))%R.

(** [np.sqrt] *)
Definition np_sqrt (c : float64) : float64 :=
  match c with
  | Num x => if Rlt_dec x 0 then NaN else Num (sqrt x)
  | NaN => NaN
  end.

(** [np.mean] of a flat list *)
Definition np_mean (cells : list float64) : float64 :=
  if has_nan cells || Nat.eqb (length cells) 0 then NaN
  else Num (fsum (observations cells) / INR (length cells)).

(** [sklearn.metrics.mean_squared_error] of two 1-d inputs: they must have
    one length, at least one sample, and no NaN. *)
Definition mean_squared_error (y_true y_pred : list float64) : result float64 :=
  if negb (Nat.eqb (length y_true) (length y_pred)) then Raise ValueError
  else if Nat.eqb (length y_true) 0 then Raise ValueError
  else if has_nan y_true || has_nan y_pred then Raise ValueError
  else
    let sq := map (fun tp => ((fst tp - snd tp) * (fst tp - snd tp))%R)
                  (combine (observations y_true) (observations y_pred)) in
    Ok (Num (fsum sq / INR (length y_true))).

(** ** Moving average *)

(** The rows a window of [W] rows ending at row [k] covers. *)
Definition window_rows {A : Type} (W k : nat) (rows : list A) : list A :=
  skipn (S k - W) (firstn (S k) rows).

(** The mean of one window of one column: NaN unless the window holds at
    least [minp] observations, and at least one. *)
Definition roll_mean (minp : nat) (cells : list float64) : float64 :=
  let obs := observations cells in
  let nobs := length obs in
  if Nat.leb minp nobs && Nat.ltb 0 nobs then Num (fsum obs / INR nobs)
  else NaN.

(** [f.rolling(W).mean()] *)
Definition rolling_mean (W : nat) (f : DataFrame) : DataFrame :=
  mkFrame (columns f)
    (imap (fun k r =>
             (fst r,
              map (fun j =>
                     roll_mean W (map (fun r' => nth j (snd r') NaN)
                                      (window_rows W k (body f))))
                  (seq 0 (shape1 f))))
          (body f)).

(** [f.rolling(window)]: the window is a non-negative integer. *)
Definition rolling (f : DataFrame) (window : Z) : result (nat * DataFrame) :=
  if window <? 0 then Raise ValueError else Ok (Z.to_nat window, f).

Definition ma_persistence (history : DataFrame) (window : Z)
    : result (Series date float64) :=
  r <- rolling history window ;;
  prediction <- iloc_row (rolling_mean (fst r) (snd r)) (-1) ;;
  Ok prediction.

Definition window_default : Z := 3.

(** ** Forecast errors *)

Abbreviation ErrorTable := (Frame string float64) (only parsing).

(** One turn of the loop over the hour columns: the entry of hour [i]. *)
Definition hour_error (Y_hat_test Y_test : DataFrame) (i : nat)
    : result (list float64) :=
  y_hat <- iloc_col Y_hat_test i ;;
  y <- iloc_col Y_test i ;;
  mse <- mean_squared_error y_hat y ;;
  Ok [np_sqrt mse].

Definition calculate_errors (Y_hat_test Y_test : DataFrame) (result_set : string)
    : result (ErrorTable * list (list float64)) :=
  let columns := [result_set] in
  let error_mean := [] in
  error_list <- mapM (hour_error Y_hat_test Y_test)
                     (seq 0 (shape1 Y_hat_test)) ;;
  error_list_0 <- match nth_error error_list 0 with
                  | Some e => Ok e
                  | None => Raise IndexError
                  end ;;
  let error_mean := error_mean ++ [[np_mean error_list_0]] in
  let index := map (fun x : nat => pretty x) (seq 0 24) in
  errors <- frame_of_rows error_list index columns ;;
  Ok (errors, error_mean).

(** The table holds no NaN. *)
Definition all_numeric (f : DataFrame) : bool :=
  forallb (fun r => negb (has_nan (snd r))) (body f).

(** The mean error as the documentation words it: the unweighted mean of
    the entries of the per-hour table. *)
Definition mean_of_hours (errors : ErrorTable) : float64 :=
  np_mean (concat (values errors)).

(** ** Statements about the error table *)

(** The numbers of hour column [j], top to bottom. *)
Definition column_values (f : DataFrame) (j : nat) : list R :=
  map (fun r => value (nth j (snd r) NaN)) (body f).

(** Root mean squared error of two columns of numbers. *)
Definition rmse (y_hat y : list R) : R :=
  sqrt (arithmetic_mean
          (map (fun tp => ((fst tp - snd tp) * (fst tp - snd tp))%R)
               (combine y_hat y))).

(** Two tables the aggregator can compare: 24 hour columns each, as many
    rows in one as in the other and at least one, a cell in every column of
    every row, and no NaN. *)
Definition comparable (Y_hat_test Y_test : DataFrame) : bool :=
  Nat.eqb (shape1 Y_hat_test) 24 && Nat.eqb (shape1 Y_test) 24
  && Nat.eqb (shape0 Y_hat_test) (shape0 Y_test)
  && negb (Nat.eqb (shape0 Y_test) 0)
  && well_formed Y_hat_test && well_formed Y_test
  && all_numeric Y_hat_test && all_numeric Y_test.

(** The outcome of the aggregator under another label. *)
Definition relabel (result_set : string)
    (r : result (ErrorTable * list (list float64)))
    : result (ErrorTable * list (list float64)) :=
  match r with
  | Ok (errors, error_mean) =>
      Ok (mkFrame [result_set] (body errors), error_mean)
  | Raise e => Raise e
  end.

(** ** Walk-forward validation *)

Definition strategy := DataFrame -> result (Series date float64).

Record wf_state : Type := mk_wf_state {
  st_history : DataFrame;
  st_predictions : list (Series date float64)
}.

(** The body of the loop at position [i] of test. *)
Definition wf_step (model : strategy) (test : DataFrame) (st : wf_state) (i : nat)
    : result wf_state :=
  let history := st_history st in
  let predictions := st_predictions st in
  Y_hat <- model history ;;
  let predictions := predictions ++ [Y_hat] in
  observation <- iloc_row test (Z.of_nat i) ;;
  let _ := append history observation in
  Ok (mk_wf_state history predictions).

(** [for i in rng: ...] *)
Fixpoint wf_loop (model : strategy) (test : DataFrame) (rng : list nat)
    (st : wf_state) : result wf_state :=
  match rng with
  | [] => Ok st
  | i :: rng' => st' <- wf_step model test st i ;; wf_loop model test rng' st'
  end.

(** A forecast is a row of cells under the columns of the history, which
    are the columns of test; the predictions table takes its cells in that
    order.  (pandas matches them to test's columns by label.) *)
Definition walk_forward_evaluation (model : strategy) (train test : DataFrame)
    (model_name : string) : result (ErrorTable * list (list float64)) :=
  let history := copy train in
  let predictions := [] in
  st <- wf_loop model test (seq 0 (shape0 test)) (mk_wf_state history predictions) ;;
  predictions <- frame_of_rows (map snd (st_predictions st))
                               (index test) (columns test) ;;
  r <- calculate_errors predictions test model_name ;;
  Ok (fst r, snd r).

(** The loop state when the strategy is about to be invoked for position
    [i] of test: the state the first [i] iterations leave. *)
Definition state_at (model : strategy) (train test : DataFrame) (i : nat)
    : result wf_state :=
  wf_loop model test (seq 0 i) (mk_wf_state (copy train) []).

Definition history_at (model : strategy) (train test : DataFrame) (i : nat)
    : result DataFrame :=
  st <- state_at model train test i ;; Ok (st_history st).

(** The history the no-leakage invariant asks for at position [i]: the rows
    of train followed by rows [0 .. i-1] of test. *)
Definition revealed (train test : DataFrame) (i : nat) : DataFrame :=
  mkFrame (columns train) (body train ++ firstn i (body test)).

(** ** The evaluator over a store of objects

    Tables are objects: a name denotes a reference, and a callee that is
    handed a reference may update the object behind it.  A callable here is
    any model that computes from the frame it is handed and may change that
    frame in place; it returns the frame as it leaves it. *)

Abbreviation ref := nat (only parsing).
Abbreviation heap := (gmap nat (Frame Z float64)) (only parsing).

Definition callable : Type :=
  DataFrame -> result (Series date float64) * DataFrame.

(** A strategy that only reads its argument. *)
Definition reading (model : strategy) : callable :=
  fun f => (model f, f).

(** The object behind a live reference. *)
Definition fetch (h : heap) (l : ref) : DataFrame :=
  default (mkFrame [] []) (h !! l).

(** A new object: a reference no object of the store has yet. *)
Definition alloc (v : DataFrame) (h : heap) : ref * heap :=
  let l := fresh (dom h) in (l, <[l := v]> h).

(** The body of the loop; [history] and [test] are references, the list
    of predictions is local to the call. *)
Definition wf_step_store (model : callable) (test history : ref)
    (predictions : list (Series date float64)) (i : nat) (h : heap)
    : result (list (Series date float64)) * heap :=
  let (r, history') := model (fetch h history) in
  let h := <[history := history']> h in
  match r with
  | Raise e => (Raise e, h)
  | Ok Y_hat =>
      let predictions := predictions ++ [Y_hat] in
      match iloc_row (fetch h test) (Z.of_nat i) with
      | Raise e => (Raise e, h)
      | Ok observation =>
          let (_, h) := alloc (append (fetch h history) observation) h in
          (Ok predictions, h)
      end
  end.

Fixpoint wf_loop_store (model : callable) (test history : ref) (rng : list nat)
    (predictions : list (Series date float64)) (h : heap)
    : result (list (Series date float64)) * heap :=
  match rng with
  | [] => (Ok predictions, h)
  | i :: rng' =>
      match wf_step_store model test history predictions i h with
      | (Ok predictions, h) =>
          wf_loop_store model test history rng' predictions h
      | (Raise e, h) => (Raise e, h)
      end
  end.

Definition walk_forward_evaluation_store (model : callable) (train test : ref)
    (model_name : string) (h : heap)
    : result (ErrorTable * list (list float64)) * heap :=
  let (history, h) := alloc (copy (fetch h train)) h in
  let predictions := [] in
  match wf_loop_store model test history (seq 0 (shape0 (fetch h test)))
                      predictions h with
  | (Raise e, h) => (Raise e, h)
  | (Ok predictions, h) =>
      match frame_of_rows (map snd predictions) (index (fetch h test))
                          (columns (fetch h test)) with
      | Raise e => (Raise e, h)
      | Ok predictions =>
          let (predictions, h) := alloc predictions h in
          (r <- calculate_errors (fetch h predictions) (fetch h test)
                                 model_name ;;
           Ok (fst r, snd r), h)
      end
  end.

(** [h'] keeps every object of [h] except, possibly, the one behind [x]. *)
Definition keeps (x : ref) (h h' : heap) : Prop :=
  forall l v, l <> x -> h !! l = Some v -> h' !! l = Some v.

(** A callable that answers as [model] does and empties the frame it was
    handed. *)
Definition erasing (model : strategy) : callable :=
  fun f => (model f, mkFrame (columns f) []).

(** ** The windowed dataset

    [transform_to_windows] and [rename_cols] come from the module
    [features_preprocessing] and [pd.read_csv] reads the file system: the
    three are parameters here, and so is the reading of a partial date
    string such as ['2015'] as the first and the last day it covers. *)

Section Dataset.
Variable RawFrame : Type.
Variable read_csv : string -> string -> result RawFrame.
Variable transform_to_windows : RawFrame -> result DataFrame.
Variable rename_cols : DataFrame -> Z -> result DataFrame.
Variable period : string -> result (date * date).

(** [data[start:stop]] with partial date strings, both ends inclusive. *)
Definition slice_between (data : DataFrame) (start stop : string)
    : result DataFrame :=
  first <- period start ;;
  last <- period stop ;;
  Ok (slice_to (slice_from data (fst first)) (snd last)).

Definition get_persistence_dataset (path index start stop : string)
    (shift : Z) : result DataFrame :=
  data <- read_csv "./data/cleaned_data/energy_loads_2015_2019.csv" index ;;
  data <- transform_to_windows data ;;
  data <- rename_cols data shift ;;
  data <- slice_between data start stop ;;
  Ok data.
End Dataset.

(** ** The runner of several models

    [model_set] is a dict from model name to strategy, read in insertion
    order: a list of pairs.  [print], [errors.head(3)] and [plot_error]
    only display; the runner returns the list of mean errors. *)

(** Two error tables side by side, row by row: both carry the index
    ['0' .. '23']. *)
Definition join_columns (f g : ErrorTable) : ErrorTable :=
  mkFrame (columns f ++ columns g)
          (map (fun rr => (fst (fst rr), snd (fst rr) ++ snd (snd rr)))
               (combine (body f) (body g))).

(** [pd.concat(frames, axis=1)] on error tables; it has nothing to
    concatenate in an empty list. *)
Definition concat_columns (frames : list ErrorTable) : result ErrorTable :=
  match frames with
  | [] => Raise ValueError
  | f :: frames' => Ok (fold_left join_columns frames' f)
  end.

(** ['2017-12-31'] *)
Definition split_date_default : date := 736694.

(** [for name, function in model_set.items(): ...] *)
Fixpoint forecasts_loop (model_set : list (string * strategy))
    (train test : DataFrame) (errors : list ErrorTable)
    (error_means : list (list (list float64)))
    : result (list ErrorTable * list (list (list float64))) :=
  match model_set with
  | [] => Ok (errors, error_means)
  | (name, function) :: model_set' =>
      r <- walk_forward_evaluation function train test name ;;
      let errors := errors ++ [fst r] in
      let error_means := error_means ++ [snd r] in
      forecasts_loop model_set' train test errors error_means
  end.

(** The models the runner evaluates when it is given none. *)
Definition model_set_default : list (string * strategy) :=
  [("prev_day_persistence",
    fun history => day_hbh_persistence history days_default);
   ("ma_persistence", fun history => ma_persistence history window_default);
   ("same_day_oya_persistence", same_day_oya_persistence)].

Section Runner.
Variable RawFrame : Type.
Variable read_csv : string -> string -> result RawFrame.
Variable transform_to_windows : RawFrame -> result DataFrame.
Variable rename_cols : DataFrame -> Z -> result DataFrame.
Variable period : string -> result (date * date).

Definition persistence_forecasts (model_set : list (string * strategy))
    : result (list (list (list float64))) :=
  data <- get_persistence_dataset RawFrame read_csv transform_to_windows
            rename_cols period
            "./data/cleaned_data/energy_loads_2015_2019.csv" "time"
            "2015" "2018" 0 ;;
  let split := train_test_split data split_date_default in
  let train := fst split in
  let test := snd split in
  let errors := [] in
  let error_means := [] in
  r <- forecasts_loop model_set train test errors error_means ;;
  let error_means := snd r in
  errors <- concat_columns (fst r) ;;
  Ok error_means.
End Runner.

(** The models of [model_set] return the outcomes [rs] on [train] and
    [test], one each, in order. *)
Definition evaluated (train test : DataFrame)
    (model_set : list (string * strategy))
    (rs : list (Frame string float64 * list (list float64))) : Prop :=
  Forall2 (fun nm r =>
             walk_forward_evaluation (snd nm) train test (fst nm) = Ok r)
          model_set rs.

(** ** Sample tables *)

(** Twenty-four hour labels. *)
Definition hours : list string := map (fun x : nat => pretty x) (seq 0 24).

(** Three days, constant over the hours. *)
Definition three_days : DataFrame :=
  mkFrame hours [(1, repeat (Num 3) 24); (2, repeat (Num 6) 24);
                 (3, repeat (Num 9) 24)].

(** One day of zeros, and the same day with a 1 at hour 0. *)
Definition flat_day : DataFrame := mkFrame hours [(1, repeat (Num 0) 24)].
Definition spike_day : DataFrame :=
  mkFrame hours [(1, Num 1 :: repeat (Num 0) 23)].

(** The two days after [three_days]. *)
Definition two_days : DataFrame :=
  mkFrame hours [(4, repeat (Num 12) 24); (5, repeat (Num 15) 24)].

(** Four days around the default split date. *)
Definition year_end : DataFrame :=
  mkFrame hours [(736693, repeat (Num 3) 24); (736694, repeat (Num 6) 24);
                 (736695, repeat (Num 9) 24); (736696, repeat (Num 12) 24)].

(** The two days after [year_end]. *)
Definition new_year : DataFrame :=
  mkFrame hours [(736697, repeat (Num 15) 24); (736698, repeat (Num 18) 24)].

(** The previous-day strategy as the runner registers it. *)
Definition prev_day : strategy :=
  fun history => day_hbh_persistence history days_default.

(** * Properties *)

(** ** Fallible calls *)

Lemma bind_Ok {A B : Type} (c : result A) (k : A -> result B) (b : B) :
  bind c k = Ok b -> exists a, c = Ok a /\ k a = Ok b.
Proof. destruct c as [a|e]; simpl; [eauto | discriminate]. Qed.

Lemma copy_id {L A : Type} (f : Frame L A) : copy f = f.
Proof. now destruct f. Qed.

(** ** Chronological indexes *)

Lemma monotonic_cons (d : date) (idx : list date) :
  is_monotonic_increasing (d :: idx) = true ->
  Forall (fun d' => d <= d') idx /\ is_monotonic_increasing idx = true.
Proof.
  revert d. induction idx as [|d' idx IH]; intros d H.
  - split; [constructor | reflexivity].
  - cbn [is_monotonic_increasing] in H.
    apply andb_prop in H as [Hle Hmono].
    apply Z.leb_le in Hle.
    destruct (IH d' Hmono) as [Hall Htl].
    split; [| exact Hmono].
    constructor; [exact Hle |].
    eapply Forall_impl; [exact Hall |]. intros; simpl in *; lia.
Qed.



Section SplitFacts.
Context {A : Type}.
Implicit Types (rows : list (Series date A)) (x : date).

(** The two slice bounds of the splitter meet at one position. *)
Lemma searchsorted_meet rows x :
  searchsorted_left (map fst rows) (x + 1)
  = searchsorted_right (map fst rows) x.
Proof.
  induction rows as [|[d r] rows IH]; [reflexivity |].
  cbn [map fst searchsorted_left searchsorted_right].
  destruct (Z.ltb_spec d (x + 1)), (Z.leb_spec d x); lia.
Qed.

Lemma filter_all rows (p : Series date A -> bool) :
  Forall (fun r => p r = true) rows -> List.filter p rows = rows.
Proof.
  induction 1 as [|r rows Hr _ IH]; [reflexivity |].
  cbn [List.filter]. now rewrite Hr, IH.
Qed.

Lemma filter_none rows (p : Series date A -> bool) :
  Forall (fun r => p r = false) rows -> List.filter p rows = [].
Proof.
  induction 1 as [|r rows Hr _ IH]; [reflexivity |].
  cbn [List.filter]. now rewrite Hr.
Qed.

(** On a chronological index the head slice is the rows dated up to the
    bound, the tail slice the rows dated after it. *)
Lemma firstn_searchsorted_right rows x :
  is_monotonic_increasing (map fst rows) = true ->
  firstn (searchsorted_right (map fst rows) x) rows
  = List.filter (fun r => fst r <=? x) rows.
Proof.
  induction rows as [|[d r] rows IH]; intros Hm; [reflexivity |].
  cbn [map fst] in Hm. destruct (monotonic_cons _ _ Hm) as [Hall Htl].
  cbn [map fst searchsorted_right List.filter].
  destruct (Z.leb_spec d x) as [Hle|Hgt].
  - cbn [firstn]. now rewrite IH.
  - cbn [firstn]. symmetry. apply filter_none.
    rewrite Forall_map in Hall.
    eapply Forall_impl; [exact Hall |].
    intros [d' r'] Hd'. cbn [fst] in *. apply Z.leb_gt. lia.
Qed.

Lemma skipn_searchsorted_right rows x :
  is_monotonic_increasing (map fst rows) = true ->
  skipn (searchsorted_right (map fst rows) x) rows
  = List.filter (fun r => x <? fst r) rows.
Proof.
  induction rows as [|[d r] rows IH]; intros Hm; [reflexivity |].
  cbn [map fst] in Hm. destruct (monotonic_cons _ _ Hm) as [Hall Htl].
  cbn [map fst searchsorted_right List.filter].
  destruct (Z.leb_spec d x) as [Hle|Hgt].
  - cbn [skipn]. destruct (Z.ltb_spec x d); [lia |]. now apply IH.
  - cbn [skipn]. destruct (Z.ltb_spec x d); [| lia].
    f_equal. symmetry. apply filter_all.
    rewrite Forall_map in Hall.
    eapply Forall_impl; [exact Hall |].
    intros [d' r'] Hd'. cbn [fst] in *. apply Z.ltb_lt. lia.
Qed.
End SplitFacts.



(** ** Positions *)

Lemma position_from_end (n : nat) (k : Z) :
  1 <= k <= Z.of_nat n ->
  position n (- k) = Ok (n - Z.to_nat k)%nat.
Proof.
  intros Hk. unfold position.
  destruct (Z.ltb_spec (- k) 0); [| lia].
  destruct (Z.ltb_spec (- k + Z.of_nat n) 0); [lia |].
  destruct (Z.leb_spec (Z.of_nat n) (- k + Z.of_nat n)); [lia |].
  cbn [orb]. f_equal. lia.
Qed.

Lemma position_empty (i : Z) : position 0 i = Raise IndexError.
Proof.
  unfold position. change (Z.of_nat 0) with 0.
  destruct (Z.ltb_spec i 0).
  - destruct (Z.ltb_spec (i + 0) 0); [reflexivity | lia].
  - destruct (Z.ltb_spec i 0); [lia |].
    destruct (Z.leb_spec 0 i); [reflexivity | lia].
Qed.

Lemma nth_error_rev_back {A : Type} (l : list A) (k : nat) :
  (1 <= k <= length l)%nat ->
  nth_error l (length l - k) = nth_error (rev l) (k - 1).
Proof.
  intros Hk. rewrite nth_error_rev.
  destruct (Nat.ltb_spec (k - 1) (length l)); [| lia].
  f_equal. lia.
Qed.

Lemma nth_error_last {A : Type} (l : list A) :
  nth_error l (length l - 1) = last l.
Proof.
  destruct l as [|x l _] using rev_ind; [reflexivity |].
  rewrite last_snoc, length_app. cbn [length].
  replace (length l + 1 - 1)%nat with (length l) by lia.
  rewrite nth_error_app2 by lia. now rewrite Nat.sub_diag.
Qed.

(** C7. On a history of at least [days] rows ([days >= 1]) the previous-day
    strategy returns, verbatim, the row [days] days back from the end of
    history; with the default [days = 1] that is the last row of history. *)
Theorem day_hbh_persistence_copies {A : Type} (history : Frame date A)
    (days : Z) :
  1 <= days <= Z.of_nat (shape0 history) ->
  (exists r, nth_error (rev (body history)) (Z.to_nat days - 1) = Some r
             /\ day_hbh_persistence history days = Ok r)
  /\ (exists r, last (body history) = Some r
                /\ day_hbh_persistence history days_default = Ok r).
Proof.
  intros Hdays. unfold day_hbh_persistence, days_default, iloc_row, shape0 in *.
  split.
  - rewrite position_from_end by exact Hdays. cbn [bind].
    rewrite nth_error_rev_back by lia.
    destruct (nth_error (rev (body history)) (Z.to_nat days - 1)) as [r|] eqn:Hr.
    + now exists r.
    + apply nth_error_None in Hr. rewrite length_rev in Hr. lia.
  - rewrite position_from_end by lia. cbn [bind].
    change (Z.to_nat 1) with 1%nat. rewrite nth_error_last.
    destruct (last (body history)) as [r|] eqn:Hr.
    + now exists r.
    + apply last_None in Hr. rewrite Hr in Hdays. cbn in Hdays. lia.
Qed.

Lemma day_hbh_persistence_copies_witness :
  let history : Frame date Z :=
    mkFrame ["h0"; "h1"] [(1, [1; 2]); (2, [10; 20]); (3, [100; 200])] in
  1 <= 2 <= Z.of_nat (shape0 history)
  /\ day_hbh_persistence history 2 = Ok (2, [10; 20])
  /\ day_hbh_persistence history days_default = Ok (3, [100; 200]).
Proof.
  intros history. split; [cbn; lia |].
  destruct (day_hbh_persistence_copies history 2) as [(r & Hr & H2) (r' & Hr' & H1)].
  - cbn; lia.
  - cbn in Hr, Hr'. injection Hr as <-. injection Hr' as <-.
    split; [exact H2 | exact H1].
Defined.

(** [days = 0] is position 0: the first row of history. *)
Lemma day_hbh_persistence_zero {A : Type} (history : Frame Z A)
    (r : Z * list A) (rows : list (Z * list A)) :
  body history = r :: rows -> day_hbh_persistence history 0 = Ok r.
Proof.
  intros Hb. unfold day_hbh_persistence, iloc_row, shape0, position.
  rewrite Hb. cbn [Z.opp Z.ltb Z.compare length].
  destruct (Z.leb_spec (Z.of_nat (S (length rows))) 0); [lia |].
  reflexivity.
Qed.

(** ** Label lookup *)

Lemma is_unique_cons (d : date) (idx : list date) :
  is_unique (d :: idx) = true -> ~ In d idx /\ is_unique idx = true.
Proof.
  cbn [is_unique]. intros H. apply andb_prop in H as [Hd Hu].
  split; [| exact Hu].
  intros Hin. apply negb_true_iff in Hd.
  assert (existsb (Z.eqb d) idx = true) as Hex.
  { apply existsb_exists. exists d. split; [exact Hin | apply Z.eqb_refl]. }
  congruence.
Qed.

Section LookupFacts.
Context {A : Type}.
Implicit Types (f : Frame date A) (r : Series date A) (d : date).

Lemma index_last_Some f d : last (index f) = Some d -> index_last f = Ok d.
Proof.
  intros Hlast. unfold index_last.
  destruct (index f) as [|d0 idx] eqn:Hidx; [discriminate |].
  rewrite <- Hidx in *.
  assert (1 <= 1 <= Z.of_nat (length (index f))) as Hlen
    by (rewrite Hidx; cbn [length]; lia).
  change (Z.neg 1) with (Z.opp 1). rewrite position_from_end by exact Hlen.
  cbn [bind]. change (Z.to_nat 1) with 1%nat.
  now rewrite nth_error_last, Hlast.
Qed.

Lemma index_last_empty f : body f = [] -> index_last f = Raise IndexError.
Proof.
  intros Hb. unfold index_last, index. rewrite Hb. cbn [map length].
  now rewrite position_empty.
Qed.

Lemma loc_missing f d :
  (forall r, In r (body f) -> fst r <> d) -> loc f d = Raise (KeyError d).
Proof.
  intros Hno. unfold loc.
  destruct (find (fun r => Z.eqb (fst r) d) (body f)) as [r|] eqn:Hfind;
    [| reflexivity].
  apply find_some in Hfind as [Hin Heq]. apply Z.eqb_eq in Heq.
  now destruct (Hno r Hin).
Qed.

Lemma loc_unique f d r :
  is_unique (index f) = true -> In r (body f) -> fst r = d -> loc f d = Ok r.
Proof.
  unfold loc, index. induction (body f) as [|r0 rows IH]; intros Hu Hin Hd.
  - destruct Hin.
  - cbn [map] in Hu. destruct (is_unique_cons _ _ Hu) as [Hfresh Hu'].
    cbn [find]. destruct Hin as [-> | Hin].
    + now rewrite Hd, Z.eqb_refl.
    + destruct (Z.eqb_spec (fst r0) d) as [Heq|_]; [| now apply IH].
      destruct Hfresh. rewrite Heq, <- Hd. now apply in_map.
Qed.
End LookupFacts.

Lemma timestamp_add_in_range (t k : Z) :
  timestamp_min_day <= t + k <= timestamp_max_day ->
  timestamp_add t k = Ok (t + k).
Proof.
  intros Hr. unfold timestamp_add.
  destruct (Z.ltb_spec (t + k) timestamp_min_day); [lia |].
  destruct (Z.ltb_spec timestamp_max_day (t + k)); [lia | reflexivity].
Qed.

Lemma timestamp_add_below (t k : Z) :
  t + k < timestamp_min_day -> timestamp_add t k = Raise OutOfBoundsDatetime.
Proof.
  intros Hr. unfold timestamp_add.
  destruct (Z.ltb_spec (t + k) timestamp_min_day); [reflexivity | lia].
Qed.

(** C5 (amended). On a non-empty history (one row per date) whose last date
    is [d]: when [d - 365] is a day a Timestamp holds, the same-day-last-year
    strategy returns the row dated exactly [d - 365] verbatim if history has
    one, and raises the lookup failure [KeyError] for that date if it has
    none; when [d - 365] is before the first day a Timestamp holds, it
    raises [OutOfBoundsDatetime] before any lookup. *)
Theorem same_day_oya_persistence_lookup {A : Type} (history : Frame date A)
    (d : date) :
  last (index history) = Some d ->
  is_unique (index history) = true ->
  (timestamp_min_day <= d - 365 <= timestamp_max_day ->
   (forall r, In r (body history) -> fst r = d - 365 ->
              same_day_oya_persistence history = Ok r)
   /\ ((forall r, In r (body history) -> fst r <> d - 365) ->
       same_day_oya_persistence history = Raise (KeyError (d - 365))))
  /\ (d - 365 < timestamp_min_day ->
      same_day_oya_persistence history = Raise OutOfBoundsDatetime).
Proof.
  intros Hlast Hu. unfold same_day_oya_persistence.
  rewrite (index_last_Some _ _ Hlast). cbn [bind].
  split.
  - intros Hrange. rewrite timestamp_add_in_range by lia. cbn [bind].
    replace (d + -365) with (d - 365) by lia.
    split.
    + intros r Hin Hd.
      now rewrite (loc_unique history (d - 365) r Hu Hin Hd).
    + intros Hno. now rewrite (loc_missing history (d - 365) Hno).
  - intros Hbelow. now rewrite timestamp_add_below by lia.
Qed.

Lemma same_day_oya_persistence_lookup_witness :
  let history : Frame date Z :=
    mkFrame ["h0"] [(736329, [7]); (736330, [8]); (736694, [9])] in
  let sparse : Frame date Z :=
    mkFrame ["h0"] [(736330, [8]); (736694, [9])] in
  let early : Frame date Z :=
    mkFrame ["h0"] [(612513, [7]); (612514, [8])] in
  (last (index history) = Some 736694 /\ is_unique (index history) = true
   /\ timestamp_min_day <= 736694 - 365 <= timestamp_max_day
   /\ same_day_oya_persistence history = Ok (736329, [7]))
  /\ (last (index sparse) = Some 736694 /\ is_unique (index sparse) = true
      /\ same_day_oya_persistence sparse = Raise (KeyError 736329))
  /\ (last (index early) = Some 612514 /\ is_unique (index early) = true
      /\ 612514 - 365 < timestamp_min_day
      /\ same_day_oya_persistence early = Raise OutOfBoundsDatetime).
Proof.
  intros history sparse early.
  assert (timestamp_min_day <= 736694 - 365 <= timestamp_max_day) as Hrange
    by (unfold timestamp_min_day, timestamp_max_day; lia).
  assert (612514 - 365 < timestamp_min_day) as Hbelow
    by (unfold timestamp_min_day; lia).
  split; [| split].
  - split; [reflexivity |]. split; [reflexivity |]. split; [exact Hrange |].
    apply (proj1 (same_day_oya_persistence_lookup history 736694
                    eq_refl eq_refl) Hrange).
    + cbn. tauto.
    + reflexivity.
  - split; [reflexivity |]. split; [reflexivity |].
    apply (proj1 (same_day_oya_persistence_lookup sparse 736694
                    eq_refl eq_refl) Hrange).
    intros r Hin. cbn in Hin.
    destruct Hin as [<- | [<- | []]]; cbn; lia.
  - split; [reflexivity |]. split; [reflexivity |]. split; [exact Hbelow |].
    exact (proj2 (same_day_oya_persistence_lookup early 612514
                    eq_refl eq_refl) Hbelow).
Defined.

(** C5 (as stated). A history of two days, 1678-01-01 and 1678-01-02, is not
    empty and has no row dated 365 days before its last date, yet the
    strategy raises no lookup failure: the date 365 days earlier is not a
    Timestamp, and subtracting raises [OutOfBoundsDatetime]. *)
Lemma same_day_oya_persistence_out_of_bounds :
  let history : Frame date Z :=
    mkFrame ["h0"] [(612513, [7]); (612514, [8])] in
  last (index history) = Some 612514
  /\ is_unique (index history) = true
  /\ (forall r, In r (body history) -> fst r <> 612514 - 365)
  /\ same_day_oya_persistence history = Raise OutOfBoundsDatetime
  /\ (forall label,
        same_day_oya_persistence history <> Raise (KeyError label)).
Proof.
  intros history. split; [reflexivity |]. split; [reflexivity |].
  split; [| split; [reflexivity | discriminate]].
  intros r Hin. cbn in Hin. destruct Hin as [<- | [<- | []]]; cbn; lia.
Qed.

(** ** Errors *)

Lemma mapM_Ok {A B : Type} (f : A -> result B) (g : A -> B) (l : list A) :
  (forall x, In x l -> f x = Ok (g x)) -> mapM f l = Ok (map g l).
Proof.
  induction l as [|x l IH]; intros Hf; [reflexivity |].
  cbn [mapM map]. rewrite (Hf x) by now left. cbn [bind].
  rewrite IH by (intros y Hy; apply Hf; now right). reflexivity.
Qed.

Lemma fsum_zero (xs : list R) :
  Forall (fun x => x = 0%R) xs -> fsum xs = 0%R.
Proof.
  induction 1 as [|x xs -> _ IH]; [reflexivity |].
  cbn [fsum fold_right]. fold (fsum xs). rewrite IH. lra.
Qed.

Lemma squares_self (xs : list R) :
  Forall (fun x => x = 0%R)
         (map (fun tp => ((fst tp - snd tp) * (fst tp - snd tp))%R)
              (combine xs xs)).
Proof.
  induction xs as [|x xs IH]; [constructor |].
  cbn [combine map fst snd]. constructor; [lra | exact IH].
Qed.

Lemma mean_squared_error_self (y : list float64) :
  length y <> 0%nat -> has_nan y = false ->
  mean_squared_error y y = Ok (Num 0).
Proof.
  intros Hlen Hnan. unfold mean_squared_error.
  rewrite Nat.eqb_refl. cbn [negb].
  destruct (Nat.eqb_spec (length y) 0) as [|_]; [contradiction |].
  rewrite Hnan. cbn [orb].
  rewrite (fsum_zero _ (squares_self _)).
  do 2 f_equal. unfold Rdiv. apply Rmult_0_l.
Qed.

Lemma np_sqrt_zero : np_sqrt (Num 0) = Num 0.
Proof.
  unfold np_sqrt. destruct (Rlt_dec 0 0) as [H|_]; [lra |].
  now rewrite sqrt_0.
Qed.

Lemma np_mean_singleton (x : R) : np_mean [Num x] = Num x.
Proof.
  unfold np_mean. cbn [has_nan existsb length Nat.eqb orb observations flat_map app fsum fold_right INR].
  f_equal. lra.
Qed.

Lemma has_nan_false (cells : list float64) :
  has_nan cells = false <-> Forall (fun c => c <> NaN) cells.
Proof.
  unfold has_nan. induction cells as [|c cells IH]; cbn [existsb].
  - split; [constructor | reflexivity].
  - rewrite orb_false_iff, IH. split.
    + intros [Hc Hall]. constructor; [now destruct c | exact Hall].
    + intros Hall. inversion_clear Hall as [|? ? Hc Hall']. 
      split; [now destruct c | exact Hall'].
Qed.

(** In a well-formed table without NaN every column is without NaN. *)
Lemma column_numeric (f : DataFrame) (j : nat) :
  well_formed f = true -> all_numeric f = true -> (j < shape1 f)%nat ->
  has_nan (map (fun r => nth j (snd r) NaN) (body f)) = false.
Proof.
  unfold well_formed, all_numeric. intros Hwf Hnum Hj.
  rewrite forallb_forall in Hwf, Hnum.
  apply has_nan_false, Forall_map, List.Forall_forall. intros r Hr.
  specialize (Hwf r Hr). specialize (Hnum r Hr).
  apply Nat.eqb_eq in Hwf. apply negb_true_iff, has_nan_false in Hnum.
  rewrite List.Forall_forall in Hnum. apply Hnum, nth_In. lia.
Qed.

(** C6. When predictions equal truth exactly, on a table of 24 hour
    columns with at least one row and no NaN, the error aggregator returns
    the per-hour Error Table whose 24 entries are all 0 and the mean
    error 0. *)
Theorem calculate_errors_exact (Y : DataFrame) (result_set : string) :
  shape1 Y = 24%nat -> shape0 Y <> 0%nat ->
  well_formed Y = true -> all_numeric Y = true ->
  calculate_errors Y Y result_set
  = Ok (mkFrame [result_set]
                (map (fun h : nat => (pretty h, [Num 0])) (seq 0 24)),
        [[Num 0]]).
Proof.
  intros Hcols Hrows Hwf Hnum. unfold calculate_errors.
  rewrite (mapM_Ok _ (fun _ => [Num 0])).
  - rewrite Hcols. cbn [bind seq map nth_error app].
    rewrite np_mean_singleton. reflexivity.
  - intros j Hj. apply in_seq in Hj. unfold hour_error, iloc_col.
    destruct (Nat.ltb_spec j (shape1 Y)); [| lia]. cbn [bind].
    rewrite mean_squared_error_self.
    + cbn [bind]. now rewrite np_sqrt_zero.
    + now rewrite length_map.
    + now apply column_numeric.
Qed.

Lemma calculate_errors_exact_witness :
  (shape1 three_days = 24%nat /\ shape0 three_days <> 0%nat
   /\ well_formed three_days = true /\ all_numeric three_days = true)
  /\ calculate_errors three_days three_days "ma_persistence"
     = Ok (mkFrame ["ma_persistence"]
                   (map (fun h : nat => (pretty h, [Num 0])) (seq 0 24)),
           [[Num 0]]).
Proof.
  assert (shape0 three_days <> 0%nat) as Hrows by (cbn; lia).
  split; [repeat split; solve [reflexivity | exact Hrows] |].
  exact (calculate_errors_exact three_days "ma_persistence"
           eq_refl Hrows eq_refl eq_refl).
Defined.

(** A table without rows has no RMSE: the aggregator raises. *)
Lemma calculate_errors_no_rows (Y_hat_test Y_test : DataFrame)
    (result_set : string) :
  shape1 Y_hat_test = 24%nat -> shape1 Y_test = 24%nat ->
  body Y_hat_test = [] -> body Y_test = [] ->
  calculate_errors Y_hat_test Y_test result_set = Raise ValueError.
Proof.
  intros Hc Hc' Hb Hb'. unfold calculate_errors. rewrite Hc.
  cbn [seq mapM]. unfold hour_error at 1, iloc_col.
  now rewrite Hc, Hc', Hb, Hb'.
Qed.

(** ** Moving average *)

Lemma observations_length (cells : list float64) :
  (length (observations cells) <= length cells)%nat.
Proof.
  unfold observations. induction cells as [|[x|] cells IH];
    cbn [flat_map app length]; lia.
Qed.

(** A window longer than the column is NaN. *)
Lemma roll_mean_short (W : nat) (cells : list float64) :
  (length cells < W)%nat -> roll_mean W cells = NaN.
Proof.
  intros Hlen. unfold roll_mean.
  assert (Hobs := observations_length cells).
  destruct (Nat.leb_spec W (length (observations cells))); [lia | reflexivity].
Qed.

Lemma nth_error_lookup {A : Type} (l : list A) (i : nat) :
  nth_error l i = l !! i.
Proof.
  revert i. induction l as [|x l IH]; intros [|i]; cbn; auto.
Qed.

Lemma last_map {A B : Type} (f : A -> B) (l : list A) :
  last (map f l) = option_map f (last l).
Proof.
  destruct l as [|x l _] using rev_ind; [reflexivity |].
  rewrite map_app. cbn [map]. now rewrite !last_snoc.
Qed.

Lemma observations_numeric (cells : list float64) :
  has_nan cells = false -> observations cells = map value cells.
Proof.
  unfold has_nan, observations.
  induction cells as [|[x|] cells IH]; cbn [existsb flat_map map orb app value];
    intros H; [reflexivity | now rewrite IH | discriminate].
Qed.

Lemma has_nan_skipn_rows (f : DataFrame) (j n : nat) :
  well_formed f = true -> all_numeric f = true -> (j < shape1 f)%nat ->
  has_nan (map (fun r => nth j (snd r) NaN) (skipn n (body f))) = false.
Proof.
  intros Hwf Hnum Hj.
  assert (H := column_numeric f j Hwf Hnum Hj).
  rewrite has_nan_false in *. rewrite <- skipn_map.
  rewrite <- (firstn_skipn n) in H. now apply Forall_app in H as [_ H].
Qed.

(** ** The mean error *)

(** The entry of one hour when the tables hold a single day. *)
Lemma rmse_one_day (a b : R) :
  (mse <- mean_squared_error [Num a] [Num b] ;; Ok [np_sqrt mse])
  = Ok [Num (Rabs (a - b))].
Proof.
  unfold mean_squared_error.
  cbn [length Nat.eqb negb has_nan existsb orb observations flat_map app
       combine map fst snd fsum fold_right bind np_sqrt].
  change (INR 1) with 1%R.
  replace (((a - b) * (a - b) + 0) / 1)%R with (Rsqr (a - b))
    by (unfold Rsqr; lra).
  destruct (Rlt_dec (Rsqr (a - b)) 0) as [Hneg|_].
  - exfalso. assert (H := Rle_0_sqr (a - b)). lra.
  - now rewrite sqrt_Rsqr_abs.
Qed.

Lemma map_snd_combine_rows {L B : Type} (idx : list L) (rows : list B) :
  length rows = length idx -> map snd (combine idx rows) = rows.
Proof.
  revert rows. induction idx as [|d idx IH]; intros [|r rows] Hlen;
    try discriminate; [reflexivity |].
  cbn [combine map snd]. f_equal. apply IH. now injection Hlen.
Qed.

Lemma frame_of_rows_values {L B : Type} (rows : list (list B)) (idx : list L)
    (cols : list string) (f : Frame L B) :
  frame_of_rows rows idx cols = Ok f ->
  values f = rows /\ columns f = cols /\ length rows = length idx.
Proof.
  unfold frame_of_rows.
  destruct (Nat.eqb_spec (length rows) (length idx)) as [Hlen|];
    [| discriminate].
  destruct (forallb _ rows); [| discriminate].
  cbn [andb]. intros [= <-]. unfold values. cbn [body columns].
  now rewrite map_snd_combine_rows.
Qed.

(** Whenever the aggregator returns, its mean error is the mean of the
    entry of hour 0 alone. *)
Lemma calculate_errors_mean_first (Y_hat_test Y_test : DataFrame)
    (result_set : string) (errors : ErrorTable)
    (error_mean : list (list float64)) :
  calculate_errors Y_hat_test Y_test result_set = Ok (errors, error_mean) ->
  exists e0 rest, values errors = e0 :: rest /\ error_mean = [[np_mean e0]].
Proof.
  unfold calculate_errors. intros H.
  apply bind_Ok in H as (error_list & _ & H).
  apply bind_Ok in H as (e0 & He0 & H).
  apply bind_Ok in H as (tbl & Htbl & H).
  injection H as <- <-.
  destruct error_list as [|e rest]; [discriminate |].
  cbn in He0. injection He0 as ->.
  apply frame_of_rows_values in Htbl as (Hv & _ & _).
  now exists e0, rest.
Qed.

Lemma hour_error_spike (j : nat) :
  In j (seq 0 24) ->
  hour_error spike_day flat_day j
  = Ok [Num (if Nat.eqb j 0 then 1 else 0)].
Proof.
  intros Hj. cbn in Hj.
  assert (Rabs (1 - 0) = 1)%R as H1 by (rewrite Rminus_0_r; apply Rabs_R1).
  assert (Rabs (0 - 0) = 0)%R as H0 by (rewrite Rminus_0_r; apply Rabs_R0).
  repeat (destruct Hj as [<- | Hj];
          [first [ rewrite <- H1 at 1; exact (rmse_one_day 1 0)
                 | rewrite <- H0 at 1; exact (rmse_one_day 0 0) ] |]).
  destruct Hj.
Qed.

(** C2. The mean error the aggregator returns is the error of hour 0, not
    the mean of the 24 per-hour errors: for a one-day prediction that is
    off by 1 at hour 0 only, the per-hour table is [1, 0, ..., 0], whose
    mean is 1/24, and the mean error returned is 1. *)
Theorem calculate_errors_mean_is_hour_0 :
  exists errors : ErrorTable,
    calculate_errors spike_day flat_day "prev_day_persistence"
    = Ok (errors, [[Num 1]])
    /\ values errors = [Num 1] :: repeat [Num 0] 23
    /\ mean_of_hours errors = Num (1 / 24)
    /\ Num 1 <> Num (1 / 24).
Proof.
  eexists. split; [| split; [| split]].
  - unfold calculate_errors.
    rewrite (mapM_Ok _ (fun j => [Num (if Nat.eqb j 0 then 1 else 0)]))
      by exact hour_error_spike.
    cbn [bind shape1 spike_day columns hours length map seq nth_error app
         Nat.eqb].
    rewrite np_mean_singleton. reflexivity.
  - reflexivity.
  - change (np_mean (Num 1 :: repeat (Num 0) 23) = Num (1 / 24)).
    unfold np_mean.
    cbn [repeat has_nan existsb orb length Nat.eqb observations flat_map app
         fsum fold_right].
    f_equal. rewrite INR_IZR_INZ. change (Z.of_nat 24) with 24. lra.
  - intros [= H]. lra.
Qed.

(** ** The walk-forward loop *)

Lemma wf_loop_app (model : strategy) (test : DataFrame) (rng1 rng2 : list nat)
    (st : wf_state) :
  wf_loop model test (rng1 ++ rng2) st
  = (st' <- wf_loop model test rng1 st ;; wf_loop model test rng2 st').
Proof.
  revert st. induction rng1 as [|i rng1 IH]; intros st; [reflexivity |].
  cbn [app wf_loop]. destruct (wf_step model test st i) as [st'|e];
    cbn [bind]; [apply IH | reflexivity].
Qed.

(** No iteration of the loop changes the history it was given. *)
Lemma wf_step_history (model : strategy) (test : DataFrame) (st st' : wf_state)
    (i : nat) :
  wf_step model test st i = Ok st' -> st_history st' = st_history st.
Proof.
  unfold wf_step. intros H.
  apply bind_Ok in H as (Y_hat & _ & H).
  apply bind_Ok in H as (observation & _ & H).
  now injection H as <-.
Qed.

Lemma wf_loop_history (model : strategy) (test : DataFrame) (rng : list nat)
    (st st' : wf_state) :
  wf_loop model test rng st = Ok st' -> st_history st' = st_history st.
Proof.
  revert st. induction rng as [|i rng IH]; intros st H.
  - now injection H as <-.
  - cbn [wf_loop] in H. apply bind_Ok in H as (st1 & Hstep & Hloop).
    rewrite (IH _ Hloop). now apply wf_step_history in Hstep.
Qed.

(** The strategy is invoked for position [i] on the history of the state
    the first [i] iterations leave. *)
Lemma state_at_succ (model : strategy) (train test : DataFrame) (i : nat) :
  state_at model train test (S i)
  = (st <- state_at model train test i ;; wf_step model test st i).
Proof.
  unfold state_at. rewrite seq_S, wf_loop_app. cbn [Nat.add].
  destruct (wf_loop model test (seq 0 i) _) as [st|e]; cbn [bind wf_loop];
    [| reflexivity].
  now destruct (wf_step model test st i).
Qed.

Lemma history_at_train (model : strategy) (train test h : DataFrame) (i : nat) :
  history_at model train test i = Ok h -> h = train.
Proof.
  unfold history_at, state_at. intros H.
  apply bind_Ok in H as (st & Hloop & H). injection H as <-.
  apply wf_loop_history in Hloop. cbn [st_history] in Hloop.
  now rewrite Hloop, copy_id.
Qed.

(** C1. The history handed to the strategy does not grow: with three days
    of train and two days of test, the history at position 1 of test is
    train itself, not train followed by row 0 of test, and the previous-day
    strategy forecasts the last day of train at both positions. *)
Theorem walk_forward_history_stale :
  history_at prev_day three_days two_days 1 = Ok three_days
  /\ revealed three_days two_days 1
     = append three_days (4, repeat (Num 12) 24)
  /\ three_days <> revealed three_days two_days 1
  /\ state_at prev_day three_days two_days 2
     = Ok (mk_wf_state three_days
             [(3, repeat (Num 9) 24); (3, repeat (Num 9) 24)]).
Proof.
  repeat split.
  intros H. apply (f_equal shape0) in H. discriminate H.
Qed.

(** C3 (amended). When the strategy raises at a position of test, every
    earlier position having returned, the evaluator returns nothing for
    that model and raises the strategy's own exception, unchanged, whatever
    the model name. *)
Theorem walk_forward_failure_propagates (model : strategy)
    (train test h : DataFrame) (model_name : string) (i : nat) (e : exn) :
  (i < shape0 test)%nat ->
  history_at model train test i = Ok h ->
  model h = Raise e ->
  walk_forward_evaluation model train test model_name = Raise e.
Proof.
  intros Hi Hh He. unfold walk_forward_evaluation.
  replace (seq 0 (shape0 test))
    with (seq 0 i ++ i :: seq (S i) (shape0 test - S i)).
  2:{ change (i :: seq (S i) (shape0 test - S i))
        with (seq (0 + i) (S (shape0 test - S i))).
      rewrite <- seq_app. f_equal. lia. }
  rewrite wf_loop_app.
  unfold history_at, state_at in Hh.
  apply bind_Ok in Hh as (st & Hloop & Hst). injection Hst as <-.
  rewrite Hloop. cbn [bind wf_loop]. unfold wf_step. now rewrite He.
Qed.

Lemma walk_forward_failure_propagates_witness :
  ((0 < shape0 new_year)%nat
   /\ history_at same_day_oya_persistence year_end new_year 0 = Ok year_end
   /\ same_day_oya_persistence year_end = Raise (KeyError 736331))
  /\ walk_forward_evaluation same_day_oya_persistence year_end new_year
       "same_day_oya_persistence" = Raise (KeyError 736331).
Proof.
  assert (0 < shape0 new_year)%nat as Hi by (cbn; lia).
  split; [repeat split; exact Hi |].
  exact (walk_forward_failure_propagates same_day_oya_persistence
           year_end new_year year_end "same_day_oya_persistence" 0
           (KeyError 736331) Hi eq_refl eq_refl).
Defined.

(** C3 (as stated). The failure the evaluator propagates carries neither
    the position nor the model name: for the year-ago strategy on four
    days of train the same [KeyError] comes out under every model name, so
    no reading of the exception gives the name back. *)
Lemma walk_forward_failure_anonymous :
  ~ exists (step_of : exn -> nat) (name_of : exn -> string),
      forall (model_name : string) (e : exn),
        walk_forward_evaluation same_day_oya_persistence year_end new_year
          model_name = Raise e ->
        step_of e = 0%nat /\ name_of e = model_name.
Proof.
  intros (step_of & name_of & H).
  assert (forall model_name,
             walk_forward_evaluation same_day_oya_persistence year_end
               new_year model_name = Raise (KeyError 736331)) as Hrun
    by reflexivity.
  destruct (H "same_day_oya_persistence" _ (Hrun _)) as [_ H1].
  destruct (H "year_ago" _ (Hrun _)) as [_ H2].
  rewrite H1 in H2. discriminate H2.
Qed.

(** ** The store *)

Section StoreFacts.
Implicit Types (h : gmap nat DataFrame) (l : nat).

Lemma keeps_refl x h : keeps x h h.
Proof. now intros l v _ H. Qed.

Lemma keeps_trans x h1 h2 h3 : keeps x h1 h2 -> keeps x h2 h3 -> keeps x h1 h3.
Proof. intros H12 H23 l v Hl H. now apply H23, H12. Qed.

Lemma keeps_update x v h : keeps x h (<[x := v]> h).
Proof. intros l w Hl H. now rewrite lookup_insert_ne. Qed.

Lemma alloc_lookup v h l w :
  h !! l = Some w -> snd (alloc v h) !! l = Some w.
Proof.
  intros H. unfold alloc. cbn [snd].
  rewrite lookup_insert_ne; [exact H |].
  intros <-. apply (is_fresh (dom h)). apply elem_of_dom. now exists w.
Qed.

Lemma alloc_new v h :
  snd (alloc v h) !! fst (alloc v h) = Some v.
Proof. unfold alloc. cbn [fst snd]. apply lookup_insert_eq. Qed.

Lemma keeps_alloc x v h : keeps x h (snd (alloc v h)).
Proof. intros l w _ H. now apply alloc_lookup. Qed.

Lemma alloc_fresh v h l w : h !! l = Some w -> fst (alloc v h) <> l.
Proof.
  intros H Heq. unfold alloc in Heq. cbn [fst] in Heq. subst l.
  apply (is_fresh (dom h)). apply elem_of_dom. now exists w.
Qed.

Lemma wf_step_keeps model test history predictions i h :
  keeps history h (snd (wf_step_store model test history predictions i h)).
Proof.
  unfold wf_step_store.
  destruct (model (fetch h history)) as [[Y_hat|e] history'];
    [| apply keeps_update].
  destruct (iloc_row _ _) as [observation|e]; [| apply keeps_update].
  destruct (alloc _ _) as [l h'] eqn:Halloc. cbn [snd].
  eapply keeps_trans; [apply keeps_update |].
  change h' with (snd (l, h')). rewrite <- Halloc. apply keeps_alloc.
Qed.

Lemma wf_loop_keeps model test history rng predictions h :
  keeps history h (snd (wf_loop_store model test history rng predictions h)).
Proof.
  revert predictions h. induction rng as [|i rng IH]; intros predictions h.
  - apply keeps_refl.
  - cbn [wf_loop_store].
    assert (Hstep := wf_step_keeps model test history predictions i h).
    destruct (wf_step_store model test history predictions i h)
      as [[predictions'|e] h1]; cbn [snd] in *; [| exact Hstep].
    eapply keeps_trans; [exact Hstep | apply IH].
Qed.
End StoreFacts.

(** C9. The evaluator changes neither of its arguments: whatever the
    callable does to the frame it is handed, after the call, returned or
    raised, the objects behind [train] and [test] are the tables they were
    before it. *)
Theorem walk_forward_evaluation_keeps_arguments (model : callable)
    (train test : nat) (model_name : string) (h : gmap nat DataFrame)
    (train_table test_table : DataFrame) :
  h !! train = Some train_table ->
  h !! test = Some test_table ->
  let h' := snd (walk_forward_evaluation_store model train test model_name h) in
  h' !! train = Some train_table /\ h' !! test = Some test_table.
Proof.
  intros Htrain Htest h'.
  assert (keeps (fst (alloc (copy (fetch h train)) h)) h h') as Hk.
  { subst h'. unfold walk_forward_evaluation_store.
    assert (Hk0 := keeps_alloc (fresh (dom h)) (copy (fetch h train)) h).
    destruct (alloc (copy (fetch h train)) h) as [history h0]
      eqn:Halloc.
    assert (history = fresh (dom h)) as Hfresh
      by (unfold alloc in Halloc; now injection Halloc).
    cbn [fst snd] in *. rewrite <- Hfresh in Hk0.
    assert (Hloop := wf_loop_keeps model test history
                       (seq 0 (shape0 (fetch h0 test))) [] h0).
    destruct (wf_loop_store _ _ _ _ _ _) as [[predictions|e] h1];
      cbn [snd] in *; [| eapply keeps_trans; eassumption].
    destruct (frame_of_rows _ _ _) as [predictions_table|e];
      cbn [snd]; [| eapply keeps_trans; eassumption].
    assert (Hk2 := keeps_alloc history predictions_table h1).
    destruct (alloc predictions_table h1) as [l h2]. cbn [snd] in *.
    eapply keeps_trans; [exact Hk0 |]. eapply keeps_trans; eassumption. }
  split; (eapply Hk; [| eassumption]); apply not_eq_sym;
    eapply alloc_fresh; eassumption.
Qed.

Lemma walk_forward_evaluation_keeps_arguments_witness :
  let h : gmap nat DataFrame := <[0%nat := three_days]> {[1%nat := two_days]} in
  let h' := snd (walk_forward_evaluation_store (erasing prev_day)
                   0%nat 1%nat "prev_day_persistence" h) in
  (h !! 0%nat = Some three_days /\ h !! 1%nat = Some two_days)
  /\ (h' !! 0%nat = Some three_days /\ h' !! 1%nat = Some two_days).
Proof.
  intros h h'.
  assert (h !! 0%nat = Some three_days) as H0 by reflexivity.
  assert (h !! 1%nat = Some two_days) as H1 by reflexivity.
  split; [now split |].
  exact (walk_forward_evaluation_keeps_arguments (erasing prev_day)
           0%nat 1%nat "prev_day_persistence" h three_days two_days H0 H1).
Defined.

(** *** The evaluator over the store runs the loop of the evaluator on values *)

Lemma fetch_Some (h : gmap nat DataFrame) (l : nat) (v : DataFrame) :
  h !! l = Some v -> fetch h l = v.
Proof. unfold fetch. now intros ->. Qed.

Lemma wf_loop_reading (model : strategy) (test history : nat) (rng : list nat)
    (predictions : list (Z * list float64)) (h : gmap nat DataFrame)
    (history_table test_table : DataFrame) :
  h !! history = Some history_table ->
  h !! test = Some test_table ->
  let r := wf_loop_store (reading model) test history rng predictions h in
  fst r = (st <- wf_loop model test_table rng
                         (mk_wf_state history_table predictions) ;;
           Ok (st_predictions st))
  /\ snd r !! history = Some history_table
  /\ snd r !! test = Some test_table.
Proof.
  revert predictions h.
  induction rng as [|i rng IH]; intros predictions h Hh Ht; [now cbn |].
  cbn [wf_loop_store wf_loop]. unfold wf_step_store, reading, wf_step.
  cbn [st_history st_predictions].
  rewrite (fetch_Some _ _ _ Hh).
  assert (<[history := history_table]> h = h) as -> by now apply insert_id.
  destruct (model history_table) as [Y_hat|e]; cbn [bind]; [| now cbn].
  rewrite (fetch_Some _ _ _ Ht).
  destruct (iloc_row test_table (Z.of_nat i)) as [observation|e]; cbn [bind];
    [| now cbn].
  rewrite (fetch_Some _ _ _ Hh).
  assert (Hh1 := alloc_lookup (append history_table observation) h _ _ Hh).
  assert (Ht1 := alloc_lookup (append history_table observation) h _ _ Ht).
  destruct (alloc (append history_table observation) h) as [l h1].
  cbn [snd] in *. now apply IH.
Qed.

Theorem walk_forward_evaluation_reading (model : strategy) (train test : nat)
    (model_name : string) (h : gmap nat DataFrame)
    (train_table test_table : DataFrame) :
  h !! train = Some train_table ->
  h !! test = Some test_table ->
  fst (walk_forward_evaluation_store (reading model) train test
         model_name h)
  = walk_forward_evaluation model train_table test_table model_name.
Proof.
  intros Htrain Htest.
  unfold walk_forward_evaluation_store, walk_forward_evaluation.
  rewrite (fetch_Some _ _ _ Htrain).
  assert (Hnew := alloc_new (copy train_table) h).
  assert (Ht0 := alloc_lookup (copy train_table) h _ _ Htest).
  destruct (alloc (copy train_table) h) as [history h0].
  cbn [fst snd] in *. rewrite (fetch_Some _ _ _ Ht0).
  destruct (wf_loop_reading model test history (seq 0 (shape0 test_table)) []
              h0 (copy train_table) test_table Hnew Ht0) as (Hr & _ & Ht1).
  destruct (wf_loop_store _ _ _ _ _ _) as [r h1]. cbn [fst snd] in *.
  subst r.
  destruct (wf_loop model test_table _ _) as [st|e]; cbn [bind];
    [| reflexivity].
  rewrite (fetch_Some _ _ _ Ht1).
  destruct (frame_of_rows _ _ _) as [predictions|e]; cbn [bind];
    [| reflexivity].
  assert (Hnew2 := alloc_new predictions h1).
  assert (Ht2 := alloc_lookup predictions h1 _ _ Ht1).
  destruct (alloc predictions h1) as [l h2]. cbn [fst snd] in *.
  now rewrite (fetch_Some _ _ _ Hnew2), (fetch_Some _ _ _ Ht2).
Qed.

(** ** The dataset provider *)

(** C10. The dataset does not depend on [path]: two calls that differ in
    [path] only, over file systems that agree on the file
    [./data/cleaned_data/energy_loads_2015_2019.csv], return the same
    table or raise the same exception. *)
Theorem get_persistence_dataset_ignores_path (RawFrame : Type)
    (read_csv read_csv' : string -> string -> result RawFrame)
    (transform_to_windows : RawFrame -> result DataFrame)
    (rename_cols : DataFrame -> Z -> result DataFrame)
    (period : string -> result (Z * Z))
    (path path' index start stop : string) (shift : Z) :
  (forall index_col,
      read_csv "./data/cleaned_data/energy_loads_2015_2019.csv" index_col
      = read_csv' "./data/cleaned_data/energy_loads_2015_2019.csv" index_col) ->
  get_persistence_dataset RawFrame read_csv transform_to_windows rename_cols
    period path index start stop shift
  = get_persistence_dataset RawFrame read_csv' transform_to_windows rename_cols
      period path' index start stop shift.
Proof.
  intros Hfile. unfold get_persistence_dataset. now rewrite Hfile.
Qed.

Lemma get_persistence_dataset_ignores_path_witness :
  let disk : string -> string -> result DataFrame :=
    fun file _ =>
      if String.eqb file "./data/cleaned_data/energy_loads_2015_2019.csv"
      then Ok three_days else Raise ValueError in
  let disk' : string -> string -> result DataFrame :=
    fun _ _ => Ok three_days in
  let windows : DataFrame -> result DataFrame := fun raw => Ok raw in
  let rename : DataFrame -> Z -> result DataFrame := fun data _ => Ok data in
  let period : string -> result (Z * Z) := fun _ => Ok (2, 3) in
  (forall index_col,
      disk "./data/cleaned_data/energy_loads_2015_2019.csv" index_col
      = disk' "./data/cleaned_data/energy_loads_2015_2019.csv" index_col)
  /\ get_persistence_dataset DataFrame disk windows rename period
       "a.csv" "time" "2015" "2018" 0
     = get_persistence_dataset DataFrame disk' windows rename period
         "b.csv" "time" "2015" "2018" 0.
Proof.
  intros disk disk' windows rename period.
  assert (forall index_col,
      disk "./data/cleaned_data/energy_loads_2015_2019.csv" index_col
      = disk' "./data/cleaned_data/energy_loads_2015_2019.csv" index_col)
    as Hfile by reflexivity.
  split; [exact Hfile |].
  exact (get_persistence_dataset_ignores_path DataFrame disk disk' windows
           rename period "a.csv" "b.csv" "time" "2015" "2018" 0 Hfile).
Defined.

(** * Further properties *)

(** ** The error aggregator *)

Lemma mapM_Ok_inv {A B : Type} (f : A -> result B) (l : list A) (ys : list B) :
  mapM f l = Ok ys -> Forall2 (fun x y => f x = Ok y) l ys.
Proof.
  revert ys. induction l as [|x l IH]; intros ys H.
  - injection H as <-. constructor.
  - cbn [mapM] in H. apply bind_Ok in H as (y & Hy & H).
    apply bind_Ok in H as (ys' & Hys & H). injection H as <-.
    constructor; [exact Hy | now apply IH].
Qed.

Lemma mapM_ext {A B : Type} (f g : A -> result B) (l : list A) :
  (forall x, In x l -> f x = g x) -> mapM f l = mapM g l.
Proof.
  induction l as [|x l IH]; intros H; [reflexivity |].
  cbn [mapM]. rewrite (H x) by now left.
  rewrite IH by (intros y Hy; apply H; now right). reflexivity.
Qed.

(** The first failure of a comprehension is its outcome. *)
Lemma mapM_Raise {A B : Type} (f : A -> result B) (l1 l2 : list A) (x : A)
    (e : exn) :
  Forall (fun a => exists b, f a = Ok b) l1 -> f x = Raise e ->
  mapM f (l1 ++ x :: l2) = Raise e.
Proof.
  induction 1 as [|a l1 [b Hb] _ IH]; intros Hx; cbn [app mapM].
  - now rewrite Hx.
  - rewrite Hb. cbn [bind]. now rewrite IH.
Qed.

Lemma fsum_nonneg (xs : list R) :
  Forall (fun x => 0 <= x)%R xs -> (0 <= fsum xs)%R.
Proof.
  induction 1 as [|x xs Hx _ IH]; cbn [fsum fold_right]; [lra |].
  fold (fsum xs). lra.
Qed.

Lemma squares_nonneg (ps : list (R * R)) :
  Forall (fun x => 0 <= x)%R
         (map (fun tp => ((fst tp - snd tp) * (fst tp - snd tp))%R) ps).
Proof.
  induction ps as [|[a b] ps IH]; cbn [map fst snd].
  - constructor.
  - constructor; [apply Rle_0_sqr | exact IH].
Qed.

Lemma mean_nonneg (xs : list R) (n : nat) :
  Forall (fun x => 0 <= x)%R xs -> (0 <= fsum xs / INR n)%R.
Proof.
  intros Hxs. assert (H := fsum_nonneg xs Hxs).
  destruct n as [|n].
  - cbn [INR]. unfold Rdiv. rewrite Rinv_0. lra.
  - apply Rmult_le_pos; [exact H |].
    apply Rlt_le, Rinv_0_lt_compat, lt_0_INR. lia.
Qed.

(** What [mean_squared_error] returns is a number, and not a negative one. *)
Lemma mean_squared_error_nonneg (y_true y_pred : list float64) (c : float64) :
  mean_squared_error y_true y_pred = Ok c -> exists m, c = Num m /\ (0 <= m)%R.
Proof.
  unfold mean_squared_error. intros H.
  destruct (negb _); [discriminate |].
  destruct (Nat.eqb _ 0); [discriminate |].
  destruct (_ || _); [discriminate |].
  injection H as <-. eexists. split; [reflexivity |].
  apply mean_nonneg, squares_nonneg.
Qed.

Lemma np_sqrt_nonneg (m : R) : (0 <= m)%R -> np_sqrt (Num m) = Num (sqrt m).
Proof.
  intros Hm. unfold np_sqrt. destruct (Rlt_dec m 0); [lra | reflexivity].
Qed.

Lemma comparable_spec (Y_hat_test Y_test : DataFrame) :
  comparable Y_hat_test Y_test = true ->
  shape1 Y_hat_test = 24%nat /\ shape1 Y_test = 24%nat
  /\ shape0 Y_hat_test = shape0 Y_test /\ shape0 Y_test <> 0%nat
  /\ well_formed Y_hat_test = true /\ well_formed Y_test = true
  /\ all_numeric Y_hat_test = true /\ all_numeric Y_test = true.
Proof.
  unfold comparable. rewrite !andb_true_iff.
  intros (((((((H1 & H2) & H3) & H4) & H5) & H6) & H7) & H8).
  apply Nat.eqb_eq in H1, H2, H3. apply negb_true_iff, Nat.eqb_neq in H4.
  tauto.
Qed.

(** The entry of hour [j] of two comparable tables is the RMSE of their
    columns [j]. *)
Lemma hour_error_numeric (Y_hat_test Y_test : DataFrame) (j : nat) :
  comparable Y_hat_test Y_test = true -> (j < 24)%nat ->
  hour_error Y_hat_test Y_test j
  = Ok [Num (rmse (column_values Y_hat_test j) (column_values Y_test j))].
Proof.
  intros Hc Hj.
  destruct (comparable_spec _ _ Hc)
    as (Hc1 & Hc2 & Hrows & Hne & Hwf1 & Hwf2 & Hn1 & Hn2).
  assert (Hnan1 := column_numeric Y_hat_test j Hwf1 Hn1 ltac:(lia)).
  assert (Hnan2 := column_numeric Y_test j Hwf2 Hn2 ltac:(lia)).
  unfold hour_error, iloc_col.
  destruct (Nat.ltb_spec j (shape1 Y_hat_test)); [| lia].
  destruct (Nat.ltb_spec j (shape1 Y_test)); [| lia].
  cbn [bind]. unfold mean_squared_error.
  rewrite !length_map. fold (shape0 Y_hat_test) (shape0 Y_test).
  rewrite Hrows, Nat.eqb_refl. cbn [negb].
  destruct (Nat.eqb_spec (shape0 Y_test) 0); [contradiction |].
  rewrite Hnan1, Hnan2. cbn [orb bind].
  rewrite np_sqrt_nonneg by (apply mean_nonneg, squares_nonneg).
  do 3 f_equal. unfold rmse, arithmetic_mean, column_values.
  rewrite !observations_numeric by assumption. rewrite !map_map.
  do 2 f_equal. rewrite length_map, length_combine, !length_map.
  fold (shape0 Y_hat_test) (shape0 Y_test). rewrite Hrows. f_equal. lia.
Qed.

(** Comparable tables are compared: the aggregator returns. *)
Lemma calculate_errors_returns (Y_hat_test Y_test : DataFrame)
    (result_set : string) :
  comparable Y_hat_test Y_test = true ->
  exists errors error_mean,
    calculate_errors Y_hat_test Y_test result_set = Ok (errors, error_mean).
Proof.
  intros Hc. destruct (comparable_spec _ _ Hc) as (Hc1 & _).
  unfold calculate_errors.
  rewrite (mapM_Ok _ (fun j => [Num (rmse (column_values Y_hat_test j)
                                         (column_values Y_test j))])).
  - rewrite Hc1. cbn [bind seq map nth_error app]. eauto.
  - intros j Hj. apply in_seq in Hj. apply hour_error_numeric; [exact Hc | lia].
Qed.

(** X1. On two comparable tables (24 hour columns each, the same number of
    rows and at least one, a number in every cell) the aggregator returns:
    an error table of 24 rows, each one number, and as mean error the
    number of its first row, hour 0. *)
Theorem calculate_errors_comparable (Y_hat_test Y_test : DataFrame)
    (result_set : string) :
  comparable Y_hat_test Y_test = true ->
  exists errors x,
    calculate_errors Y_hat_test Y_test result_set = Ok (errors, [[Num x]])
    /\ hd_error (values errors) = Some [Num x]
    /\ Forall (fun row => exists y, row = [Num y]) (values errors)
    /\ length (values errors) = 24%nat.
Proof.
  intros Hc. destruct (comparable_spec _ _ Hc) as (Hc1 & _).
  unfold calculate_errors.
  rewrite (mapM_Ok _ (fun j => [Num (rmse (column_values Y_hat_test j)
                                         (column_values Y_test j))])).
  - rewrite Hc1. cbn [bind seq map nth_error app].
    rewrite np_mean_singleton.
    eexists. eexists. split; [reflexivity |].
    cbn [values body map snd hd_error length]. split; [reflexivity |].
    split; [| reflexivity].
    repeat (constructor; [eexists; reflexivity |]). constructor.
  - intros j Hj. apply in_seq in Hj. apply hour_error_numeric; [exact Hc | lia].
Qed.

Lemma calculate_errors_comparable_witness :
  comparable spike_day flat_day = true
  /\ exists errors x,
       calculate_errors spike_day flat_day "ma_persistence"
       = Ok (errors, [[Num x]])
       /\ hd_error (values errors) = Some [Num x]
       /\ Forall (fun row => exists y, row = [Num y]) (values errors)
       /\ length (values errors) = 24%nat.
Proof.
  split; [reflexivity |].
  exact (calculate_errors_comparable spike_day flat_day "ma_persistence"
           eq_refl).
Defined.

Lemma mapM_length {A B : Type} (f : A -> result B) (l : list A) (ys : list B) :
  mapM f l = Ok ys -> length ys = length l.
Proof.
  intros H. apply mapM_Ok_inv in H.
  induction H; cbn [length]; congruence.
Qed.

Lemma map_fst_combine_rows {L B : Type} (idx : list L) (rows : list B) :
  length rows = length idx -> map fst (combine idx rows) = idx.
Proof.
  revert rows. induction idx as [|d idx IH]; intros [|r rows] Hlen;
    try discriminate; [reflexivity |].
  cbn [combine map fst]. f_equal. apply IH. now injection Hlen.
Qed.

Lemma frame_of_rows_index {L B : Type} (rows : list (list B)) (idx : list L)
    (cols : list string) (f : Frame L B) :
  frame_of_rows rows idx cols = Ok f -> index f = idx.
Proof.
  unfold frame_of_rows.
  destruct (Nat.eqb_spec (length rows) (length idx)) as [Hlen|];
    [| discriminate].
  destruct (forallb _ rows); [| discriminate].
  cbn [andb]. intros [= <-]. unfold index. cbn [body].
  now apply map_fst_combine_rows.
Qed.

(** X2. Whenever the aggregator returns, every entry of the error
    table is a number, never NaN, and is not negative. *)
Theorem calculate_errors_nonneg (Y_hat_test Y_test : DataFrame)
    (result_set : string) (errors : ErrorTable)
    (error_mean : list (list float64)) :
  calculate_errors Y_hat_test Y_test result_set = Ok (errors, error_mean) ->
  Forall (fun row => exists x, row = [Num x] /\ (0 <= x)%R) (values errors).
Proof.
  unfold calculate_errors. intros H.
  apply bind_Ok in H as (error_list & Hlist & H).
  apply bind_Ok in H as (e0 & _ & H).
  apply bind_Ok in H as (tbl & Htbl & H). injection H as <- _.
  apply frame_of_rows_values in Htbl as (-> & _ & _).
  apply mapM_Ok_inv in Hlist.
  induction Hlist as [|j row js rows Hrow _ IH]; constructor; [| exact IH].
  unfold hour_error in Hrow.
  apply bind_Ok in Hrow as (y_hat & _ & Hrow).
  apply bind_Ok in Hrow as (y & _ & Hrow).
  apply bind_Ok in Hrow as (mse & Hmse & Hrow). injection Hrow as <-.
  apply mean_squared_error_nonneg in Hmse as (m & -> & Hm).
  exists (sqrt m). split; [now rewrite np_sqrt_nonneg | apply sqrt_pos].
Qed.

Lemma calculate_errors_nonneg_witness :
  exists errors error_mean,
    calculate_errors spike_day flat_day "ma_persistence"
    = Ok (errors, error_mean)
    /\ Forall (fun row => exists x, row = [Num x] /\ (0 <= x)%R)
              (values errors).
Proof.
  destruct (calculate_errors_returns spike_day flat_day "ma_persistence"
              eq_refl) as (errors & error_mean & H).
  exists errors, error_mean. split; [exact H |].
  exact (calculate_errors_nonneg _ _ _ _ _ H).
Defined.

(** X3. The aggregator returns only for predictions of exactly 24
    columns; the table it returns is indexed '0' .. '23' and has the single
    column [result_set], and the mean error holds one entry. *)
Theorem calculate_errors_shape (Y_hat_test Y_test : DataFrame)
    (result_set : string) (errors : ErrorTable)
    (error_mean : list (list float64)) :
  calculate_errors Y_hat_test Y_test result_set = Ok (errors, error_mean) ->
  shape1 Y_hat_test = 24%nat
  /\ index errors = map (fun x : nat => pretty x) (seq 0 24)
  /\ columns errors = [result_set]
  /\ length error_mean = 1%nat.
Proof.
  unfold calculate_errors. intros H.
  apply bind_Ok in H as (error_list & Hlist & H).
  apply bind_Ok in H as (e0 & _ & H).
  apply bind_Ok in H as (tbl & Htbl & H).
  injection H as Herrors Hmean. subst errors error_mean.
  apply mapM_length in Hlist. rewrite length_seq in Hlist.
  destruct (frame_of_rows_values _ _ _ _ Htbl) as (_ & Hcols & Hlen).
  rewrite length_map, length_seq in Hlen.
  split; [congruence |].
  split; [exact (frame_of_rows_index _ _ _ _ Htbl) |].
  split; [exact Hcols | reflexivity].
Qed.

Lemma calculate_errors_shape_witness :
  exists errors error_mean,
    calculate_errors spike_day flat_day "ma_persistence"
    = Ok (errors, error_mean)
    /\ shape1 spike_day = 24%nat
    /\ index errors = map (fun x : nat => pretty x) (seq 0 24)
    /\ columns errors = ["ma_persistence"]
    /\ length error_mean = 1%nat.
Proof.
  destruct (calculate_errors_returns spike_day flat_day "ma_persistence"
              eq_refl) as (errors & error_mean & H).
  exists errors, error_mean. split; [exact H |].
  exact (calculate_errors_shape _ _ _ _ _ H).
Defined.

(** X4. Predictions and truth with different numbers of rows (and at
    least one column each) make the aggregator raise [ValueError]. *)
Theorem calculate_errors_rows_mismatch (Y_hat_test Y_test : DataFrame)
    (result_set : string) :
  shape0 Y_hat_test <> shape0 Y_test ->
  (0 < shape1 Y_hat_test)%nat -> (0 < shape1 Y_test)%nat ->
  calculate_errors Y_hat_test Y_test result_set = Raise ValueError.
Proof.
  intros Hrows Hc1 Hc2. unfold calculate_errors.
  destruct (shape1 Y_hat_test) as [|c] eqn:Hc; [lia |].
  cbn [seq mapM]. unfold hour_error at 1, iloc_col. rewrite Hc.
  destruct (Nat.ltb_spec 0 (S c)); [| lia].
  destruct (Nat.ltb_spec 0 (shape1 Y_test)); [| lia].
  cbn [bind]. unfold mean_squared_error. rewrite !length_map.
  fold (shape0 Y_hat_test) (shape0 Y_test).
  destruct (Nat.eqb_spec (shape0 Y_hat_test) (shape0 Y_test));
    [contradiction | reflexivity].
Qed.

Lemma calculate_errors_rows_mismatch_witness :
  (shape0 three_days <> shape0 two_days
   /\ (0 < shape1 three_days)%nat /\ (0 < shape1 two_days)%nat)
  /\ calculate_errors three_days two_days "ma_persistence" = Raise ValueError.
Proof.
  assert (shape0 three_days <> shape0 two_days) as H by (cbn; lia).
  assert (0 < shape1 three_days)%nat as H1 by (cbn; lia).
  assert (0 < shape1 two_days)%nat as H2 by (cbn; lia).
  split; [now repeat split |].
  exact (calculate_errors_rows_mismatch three_days two_days "ma_persistence"
           H H1 H2).
Defined.

(** X5. The label only names the column of the error table: under
    another label the aggregator raises the same exception or returns the
    same entries and the same mean error. *)
Theorem calculate_errors_label (Y_hat_test Y_test : DataFrame)
    (result_set result_set' : string) :
  calculate_errors Y_hat_test Y_test result_set'
  = relabel result_set' (calculate_errors Y_hat_test Y_test result_set).
Proof.
  unfold calculate_errors.
  destruct (mapM _ _) as [error_list|e]; cbn [bind relabel]; [| reflexivity].
  destruct (nth_error error_list 0) as [e0|]; cbn [bind relabel];
    [| reflexivity].
  unfold frame_of_rows. cbn [length].
  destruct (_ && _); cbn [bind relabel]; reflexivity.
Qed.

Lemma squares_swap (xs ys : list R) :
  map (fun tp => ((fst tp - snd tp) * (fst tp - snd tp))%R) (combine xs ys)
  = map (fun tp => ((fst tp - snd tp) * (fst tp - snd tp))%R) (combine ys xs).
Proof.
  revert ys. induction xs as [|x xs IH]; intros [|y ys]; try reflexivity.
  cbn [combine map fst snd]. f_equal; [lra | apply IH].
Qed.

Lemma mean_squared_error_swap (y_true y_pred : list float64) :
  mean_squared_error y_true y_pred = mean_squared_error y_pred y_true.
Proof.
  unfold mean_squared_error.
  rewrite (Nat.eqb_sym (length y_pred)).
  destruct (Nat.eqb_spec (length y_true) (length y_pred)) as [Hlen|];
    [| reflexivity].
  cbn [negb]. rewrite Hlen, (orb_comm (has_nan y_pred)), squares_swap.
  reflexivity.
Qed.

(** X6. On tables with the same number of columns the aggregator
    does not depend on which table is passed as predictions and which as
    truth. *)
Theorem calculate_errors_symmetric (Y_hat_test Y_test : DataFrame)
    (result_set : string) :
  shape1 Y_hat_test = shape1 Y_test ->
  calculate_errors Y_hat_test Y_test result_set
  = calculate_errors Y_test Y_hat_test result_set.
Proof.
  intros Hcols. unfold calculate_errors. rewrite <- Hcols.
  rewrite (mapM_ext (hour_error Y_hat_test Y_test)
                    (hour_error Y_test Y_hat_test)); [reflexivity |].
  intros j _. unfold hour_error, iloc_col. rewrite <- Hcols.
  destruct (Nat.ltb j (shape1 Y_hat_test)); cbn [bind]; [| reflexivity].
  now rewrite mean_squared_error_swap.
Qed.

Lemma calculate_errors_symmetric_witness :
  shape1 spike_day = shape1 flat_day
  /\ calculate_errors spike_day flat_day "ma_persistence"
     = calculate_errors flat_day spike_day "ma_persistence".
Proof.
  split; [reflexivity |].
  exact (calculate_errors_symmetric spike_day flat_day "ma_persistence"
           eq_refl).
Defined.

(** ** The walk-forward evaluator *)

Lemma iloc_row_nat {L A : Type} (f : Frame L A) (i : nat) :
  (i < shape0 f)%nat -> exists r, iloc_row f (Z.of_nat i) = Ok r.
Proof.
  intros Hi. unfold iloc_row, position.
  assert ((Z.of_nat i <? 0) = false) as E1 by (apply Z.ltb_ge; lia).
  assert ((Z.of_nat (shape0 f) <=? Z.of_nat i) = false) as E2
    by (apply Z.leb_gt; lia).
  cbv zeta. rewrite E1. cbv iota. rewrite E1, E2.
  cbn [orb bind]. rewrite Nat2Z.id.
  destruct (nth_error (body f) i) as [r|] eqn:Hr; [now exists r |].
  apply nth_error_None in Hr. unfold shape0 in Hi. lia.
Qed.

(** With a strategy that returns [Y_hat] on the history, the loop stores
    [Y_hat] once per position and leaves the history as it is. *)
Lemma wf_loop_constant (model : strategy) (test : DataFrame) (rng : list nat)
    (st : wf_state) (Y_hat : Z * list float64) :
  model (st_history st) = Ok Y_hat ->
  Forall (fun i => (i < shape0 test)%nat) rng ->
  wf_loop model test rng st
  = Ok (mk_wf_state (st_history st)
          (st_predictions st ++ repeat Y_hat (length rng))).
Proof.
  intros Hmodel Hrng. revert st Hmodel.
  induction Hrng as [|i rng Hi _ IH]; intros st Hmodel.
  - cbn [wf_loop length repeat]. rewrite app_nil_r. now destruct st.
  - cbn [wf_loop]. unfold wf_step. rewrite Hmodel. cbn [bind].
    destruct (iloc_row_nat test i Hi) as [r ->]. cbn [bind].
    rewrite IH by exact Hmodel. cbn [st_history st_predictions length repeat].
    now rewrite <- app_assoc.
Qed.

Lemma Forall_seq_lt (n : nat) : Forall (fun i => (i < n)%nat) (seq 0 n).
Proof. apply List.Forall_forall. intros i Hi. apply in_seq in Hi. lia. Qed.

Lemma result_eta {A B : Type} (c : result (A * B)) :
  (r <- c ;; Ok (fst r, snd r)) = c.
Proof. now destruct c as [[a b]|e]. Qed.

(** X7. The loop never changes the history it hands the strategy: when
    the strategy returns [Y_hat] on train, then at every position [i] of
    test the history is train itself and the forecasts stored so far are
    [i] copies of [Y_hat]. *)
Theorem walk_forward_forecasts_constant (model : strategy)
    (train test : DataFrame) (Y_hat : Z * list float64) (i : nat) :
  model train = Ok Y_hat ->
  (i <= shape0 test)%nat ->
  state_at model train test i = Ok (mk_wf_state train (repeat Y_hat i)).
Proof.
  intros Hmodel Hi. unfold state_at.
  rewrite (wf_loop_constant model test (seq 0 i)
             (mk_wf_state (copy train) []) Y_hat).
  - cbn [st_history st_predictions app]. now rewrite length_seq, copy_id.
  - cbn [st_history]. now rewrite copy_id.
  - apply List.Forall_forall. intros j Hj. apply in_seq in Hj. lia.
Qed.

Lemma walk_forward_forecasts_constant_witness :
  (prev_day three_days = Ok (3, repeat (Num 9) 24)
   /\ (2 <= shape0 two_days)%nat)
  /\ state_at prev_day three_days two_days 2
     = Ok (mk_wf_state three_days
             [(3, repeat (Num 9) 24); (3, repeat (Num 9) 24)]).
Proof.
  assert (2 <= shape0 two_days)%nat as Hi by (cbn; lia).
  split; [split; [reflexivity | exact Hi] |].
  exact (walk_forward_forecasts_constant prev_day three_days two_days
           (3, repeat (Num 9) 24) 2 eq_refl Hi).
Defined.

(** X8. On a test table without rows the evaluator never invokes
    the strategy and raises: [ValueError] when test has columns,
    [IndexError] when it has none. *)
Theorem walk_forward_evaluation_no_test (model : strategy)
    (train test : DataFrame) (model_name : string) :
  body test = [] ->
  walk_forward_evaluation model train test model_name
  = Raise (if Nat.eqb (shape1 test) 0 then IndexError else ValueError).
Proof.
  intros Hb. unfold walk_forward_evaluation, shape0, index. rewrite Hb.
  cbn [length seq wf_loop bind st_predictions map].
  unfold frame_of_rows. cbn [length Nat.eqb forallb andb combine bind].
  unfold calculate_errors, shape1. cbn [columns].
  destruct (length (columns test)) as [|c] eqn:Hc.
  - reflexivity.
  - cbn [seq mapM]. unfold hour_error at 1, iloc_col, shape1.
    cbn [columns body map]. rewrite Hc, Hb. reflexivity.
Qed.

Lemma walk_forward_evaluation_no_test_witness :
  let no_days : DataFrame := mkFrame hours [] in
  body no_days = []
  /\ walk_forward_evaluation prev_day three_days no_days "prev_day_persistence"
     = Raise ValueError.
Proof.
  intros no_days. split; [reflexivity |].
  exact (walk_forward_evaluation_no_test prev_day three_days no_days
           "prev_day_persistence" eq_refl).
Defined.

(** ** The strategies *)

(** X9. The previous-day strategy raises [IndexError] when [days]
    is more than the number of rows of history, or at most its negation; on
    an empty history that is every [days]. *)
Theorem day_hbh_persistence_out_of_range {A : Type} (history : Frame Z A)
    (days : Z) :
  Z.of_nat (shape0 history) < days \/ days <= - Z.of_nat (shape0 history) ->
  day_hbh_persistence history days = Raise IndexError.
Proof.
  intros Hdays. unfold day_hbh_persistence, iloc_row, position.
  destruct (Z.ltb_spec (- days) 0).
  - destruct (Z.ltb_spec (- days + Z.of_nat (shape0 history)) 0);
      [reflexivity | lia].
  - destruct (Z.ltb_spec (- days) 0); [lia |].
    destruct (Z.leb_spec (Z.of_nat (shape0 history)) (- days));
      [reflexivity | lia].
Qed.

Lemma day_hbh_persistence_out_of_range_witness :
  let history : Frame Z Z := mkFrame ["h0"] [(1, [7]); (2, [8])] in
  (Z.of_nat (shape0 history) < 3 \/ 3 <= - Z.of_nat (shape0 history))
  /\ day_hbh_persistence history 3 = Raise IndexError.
Proof.
  intros history.
  assert (Z.of_nat (shape0 history) < 3 \/ 3 <= - Z.of_nat (shape0 history))
    as H by (left; cbn; lia).
  split; [exact H |].
  exact (day_hbh_persistence_out_of_range history 3 H).
Defined.

(** X10. A [days] of zero or less counts from the start: with
    [days = -k] the previous-day strategy returns row [k] of history. *)
Theorem day_hbh_persistence_from_start {A : Type} (history : Frame Z A)
    (k : nat) (r : Z * list A) :
  nth_error (body history) k = Some r ->
  day_hbh_persistence history (- Z.of_nat k) = Ok r.
Proof.
  intros Hr. unfold day_hbh_persistence. rewrite Z.opp_involutive.
  assert (k < shape0 history)%nat as Hk
    by (apply nth_error_Some; congruence).
  destruct (iloc_row_nat history k Hk) as [r' Hr'].
  rewrite Hr'. f_equal.
  unfold iloc_row, position in Hr'. cbv zeta in Hr'.
  assert ((Z.of_nat k <? 0) = false) as E1 by (apply Z.ltb_ge; lia).
  assert ((Z.of_nat (shape0 history) <=? Z.of_nat k) = false) as E2
    by (apply Z.leb_gt; lia).
  rewrite E1 in Hr'. cbv iota in Hr'. rewrite E1, E2 in Hr'.
  cbn [orb bind] in Hr'. rewrite Nat2Z.id, Hr in Hr'. congruence.
Qed.

Lemma day_hbh_persistence_from_start_witness :
  let history : Frame Z Z := mkFrame ["h0"] [(1, [7]); (2, [8]); (3, [9])] in
  nth_error (body history) 1 = Some (2, [8])
  /\ day_hbh_persistence history (-1) = Ok (2, [8]).
Proof.
  intros history. split; [reflexivity |].
  exact (day_hbh_persistence_from_start history 1 (2, [8]) eq_refl).
Defined.

Lemma index_last_inv {L A : Type} (f : Frame L A) (d : L) :
  index_last f = Ok d -> last (index f) = Some d.
Proof.
  unfold index_last. intros H.
  destruct (index f) as [|d0 idx] eqn:Hidx.
  - cbn [length] in H. rewrite position_empty in H. discriminate.
  - rewrite <- Hidx in *.
    assert (1 <= 1 <= Z.of_nat (length (index f))) as Hlen
      by (rewrite Hidx; cbn [length]; lia).
    change (Z.neg 1) with (Z.opp 1) in H.
    rewrite position_from_end in H by exact Hlen. cbn [bind] in H.
    change (Z.to_nat 1) with 1%nat in H. rewrite nth_error_last in H.
    destruct (last (index f)); [congruence | discriminate].
Qed.

Lemma timestamp_add_inv (t k t' : Z) :
  timestamp_add t k = Ok t' ->
  t' = t + k /\ timestamp_min_day <= t' <= timestamp_max_day.
Proof.
  unfold timestamp_add.
  destruct (Z.ltb_spec (t + k) timestamp_min_day); [discriminate |].
  destruct (Z.ltb_spec timestamp_max_day (t + k)); [discriminate |].
  cbn [orb]. intros [= <-]. lia.
Qed.

(** X11. On a history with one row per date, whatever the year-ago
    strategy returns is a row of the history, dated exactly 365 days before
    the last date of history. *)
Theorem same_day_oya_persistence_sound {A : Type} (history : Frame Z A)
    (r : Z * list A) :
  is_unique (index history) = true ->
  same_day_oya_persistence history = Ok r ->
  In r (body history)
  /\ exists d, last (index history) = Some d /\ fst r = d - 365.
Proof.
  unfold same_day_oya_persistence. intros _ H.
  apply bind_Ok in H as (d & Hd & H).
  apply bind_Ok in H as (d' & Hd' & H).
  apply bind_Ok in H as (r' & Hloc & H). injection H as ->.
  apply timestamp_add_inv in Hd' as [-> _].
  unfold loc in Hloc.
  destruct (find (fun r0 => Z.eqb (fst r0) (d + -365)) (body history))
    as [r0|] eqn:Hfind; [| discriminate].
  injection Hloc as ->. apply find_some in Hfind as [Hin Heq].
  apply Z.eqb_eq in Heq. split; [exact Hin |].
  exists d. split; [now apply index_last_inv | lia].
Qed.

Lemma same_day_oya_persistence_sound_witness :
  let history : Frame Z Z :=
    mkFrame ["h0"] [(736329, [7]); (736330, [8]); (736694, [9])] in
  (is_unique (index history) = true
   /\ same_day_oya_persistence history = Ok (736329, [7]))
  /\ In (736329, [7]) (body history)
  /\ exists d, last (index history) = Some d /\ 736329 = d - 365.
Proof.
  intros history. split; [split; reflexivity |].
  exact (same_day_oya_persistence_sound history (736329, [7])
           eq_refl eq_refl).
Defined.

(** X12. On a chronological history that spans fewer than 365 days from
    its first to its last date, and whose last date less 365 days is a day
    a Timestamp holds, the year-ago strategy raises [KeyError] for that
    day. *)
Theorem same_day_oya_persistence_short_history {A : Type}
    (history : Frame Z A) (first_day last_day : Z) :
  is_monotonic_increasing (index history) = true ->
  hd_error (index history) = Some first_day ->
  last (index history) = Some last_day ->
  last_day - first_day < 365 ->
  timestamp_min_day <= last_day - 365 <= timestamp_max_day ->
  same_day_oya_persistence history = Raise (KeyError (last_day - 365)).
Proof.
  intros Hm Hfirst Hlast Hspan Hrange. unfold same_day_oya_persistence.
  rewrite (index_last_Some _ _ Hlast). cbn [bind].
  rewrite timestamp_add_in_range by lia. cbn [bind].
  replace (last_day + -365) with (last_day - 365) by lia.
  rewrite loc_missing; [reflexivity |].
  intros r Hin Hr. unfold index in *.
  destruct (body history) as [|r0 rows] eqn:Hb; [destruct Hin |].
  cbn [map hd_error] in Hfirst, Hm. injection Hfirst as Hfirst.
  destruct (monotonic_cons _ _ Hm) as [Hall _].
  destruct Hin as [-> | Hin]; [lia |].
  rewrite Forall_map in Hall. rewrite List.Forall_forall in Hall.
  specialize (Hall r Hin). cbn beta in Hall. lia.
Qed.

Lemma same_day_oya_persistence_short_history_witness :
  (is_monotonic_increasing (index year_end) = true
   /\ hd_error (index year_end) = Some 736693
   /\ last (index year_end) = Some 736696
   /\ 736696 - 736693 < 365
   /\ timestamp_min_day <= 736696 - 365 <= timestamp_max_day)
  /\ same_day_oya_persistence year_end = Raise (KeyError 736331).
Proof.
  assert (736696 - 736693 < 365) as Hspan by lia.
  assert (timestamp_min_day <= 736696 - 365 <= timestamp_max_day) as Hrange
    by (unfold timestamp_min_day, timestamp_max_day; lia).
  split; [repeat split; solve [exact Hspan | apply Hrange] |].
  exact (same_day_oya_persistence_short_history year_end 736693 736696
           eq_refl eq_refl eq_refl Hspan Hrange).
Defined.

(** On a history that has a last row, the moving average is the window
    means of every column over the window that ends on that row. *)
Lemma ma_persistence_last (history : DataFrame) (window : Z) (d : Z)
    (r : list float64) :
  0 <= window -> last (body history) = Some (d, r) ->
  ma_persistence history window
  = Ok (d, map (fun j =>
                  roll_mean (Z.to_nat window)
                    (map (fun r' => nth j (snd r') NaN)
                         (skipn (shape0 history - Z.to_nat window)
                                (body history))))
               (seq 0 (shape1 history))).
Proof.
  intros Hw Hlast. unfold ma_persistence, rolling.
  destruct (Z.ltb_spec window 0); [lia |]. cbn [bind fst snd].
  assert (shape0 history <> 0%nat) as Hne.
  { unfold shape0. destruct (body history); [discriminate | cbn; lia]. }
  unfold iloc_row, rolling_mean, shape0 in *. cbn [body].
  rewrite length_imap. change (Z.neg 1) with (Z.opp 1).
  rewrite position_from_end by lia. cbn [bind].
  change (Z.to_nat 1) with 1%nat.
  rewrite nth_error_lookup, list_lookup_imap, <- nth_error_lookup,
    nth_error_last, Hlast.
  cbn [fmap option_fmap option_map fst bind]. do 2 f_equal.
  apply map_ext_in. intros j _. unfold window_rows.
  replace (S (length (body history) - 1)) with (length (body history)) by lia.
  now rewrite firstn_all.
Qed.

Lemma map_const_seq {B : Type} (b : B) (s n : nat) :
  map (fun _ => b) (seq s n) = repeat b n.
Proof.
  revert s. induction n as [|n IH]; intros s; [reflexivity |].
  cbn [seq map repeat]. now rewrite IH.
Qed.

Lemma last_nonempty {B : Type} (l : list B) :
  l <> [] -> exists x, last l = Some x.
Proof.
  intros Hl. destruct (last l) as [x|] eqn:H; [now exists x |].
  now apply last_None in H.
Qed.

(** X13. On a non-empty history of fewer rows than the window the
    moving average returns a forecast labelled with the last date whose
    cells are all NaN. *)
Theorem ma_persistence_short_history (history : DataFrame) (window : Z)
    (d : Z) :
  last (index history) = Some d ->
  Z.of_nat (shape0 history) < window ->
  ma_persistence history window = Ok (d, repeat NaN (shape1 history)).
Proof.
  intros Hlast Hshort. unfold index in Hlast. rewrite last_map in Hlast.
  destruct (last (body history)) as [[d' r]|] eqn:Hr; [| discriminate].
  cbn in Hlast. injection Hlast as ->.
  rewrite (ma_persistence_last history window d r) by (lia || exact Hr).
  do 2 f_equal. rewrite <- (map_const_seq NaN 0).
  apply map_ext. intros j. apply roll_mean_short.
  rewrite length_map, length_skipn. unfold shape0 in *. lia.
Qed.

Lemma ma_persistence_short_history_witness :
  (last (index two_days) = Some 5
   /\ Z.of_nat (shape0 two_days) < window_default)
  /\ ma_persistence two_days window_default = Ok (5, repeat NaN 24).
Proof.
  assert (Z.of_nat (shape0 two_days) < window_default) as H
    by (cbn; unfold window_default; lia).
  split; [split; [reflexivity | exact H] |].
  exact (ma_persistence_short_history two_days window_default 5 eq_refl H).
Defined.

Lemma nth_seq_row (r : list float64) :
  map (fun j => nth j r NaN) (seq 0 (length r)) = r.
Proof.
  induction r as [|c r IH]; [reflexivity |].
  cbn [length seq map nth]. f_equal.
  rewrite <- seq_shift, map_map. exact IH.
Qed.

Lemma last_In {B : Type} (l : list B) (x : B) : last l = Some x -> In x l.
Proof.
  destruct l as [|y l _] using rev_ind; [discriminate |].
  rewrite last_snoc. intros [= ->]. apply in_or_app. right. now left.
Qed.

Lemma skipn_last_one {B : Type} (l : list B) (x : B) :
  last l = Some x -> skipn (length l - 1) l = [x].
Proof.
  destruct l as [|y l _] using rev_ind; [discriminate |].
  rewrite last_snoc. intros [= ->]. rewrite length_app. cbn [length].
  replace (length l + 1 - 1)%nat with (length l + 0)%nat by lia.
  now rewrite skipn_app, Nat.add_0_r, skipn_all, Nat.sub_diag.
Qed.

(** X14. With a window of 1, on a non-empty well-formed history
    without NaN, the moving average is the previous-day strategy with its
    default offset. *)
Theorem ma_persistence_window_1 (history : DataFrame) :
  shape0 history <> 0%nat ->
  well_formed history = true -> all_numeric history = true ->
  ma_persistence history 1 = day_hbh_persistence history days_default.
Proof.
  intros Hne Hwf Hnum.
  destruct (last_nonempty (body history)) as [[d r] Hlast].
  { intros Hb. unfold shape0 in Hne. now rewrite Hb in Hne. }
  rewrite (ma_persistence_last history 1 d r) by (lia || exact Hlast).
  unfold day_hbh_persistence, days_default, iloc_row.
  rewrite position_from_end by (unfold shape0 in *; lia). cbn [bind].
  change (Z.to_nat 1) with 1%nat. unfold shape0.
  rewrite nth_error_last, Hlast, (skipn_last_one _ _ Hlast).
  do 2 f_equal.
  assert (Hin := last_In _ _ Hlast).
  unfold well_formed, all_numeric in Hwf, Hnum.
  rewrite forallb_forall in Hwf, Hnum.
  specialize (Hwf _ Hin). specialize (Hnum _ Hin). cbn [snd] in Hwf, Hnum.
  apply Nat.eqb_eq in Hwf. apply negb_true_iff, has_nan_false in Hnum.
  rewrite <- Hwf. rewrite <- (nth_seq_row r) at 2.
  apply map_ext_in. intros j Hj. apply in_seq in Hj. cbn [map snd].
  rewrite List.Forall_forall in Hnum.
  assert (In (nth j r NaN) r) as Hc by (apply nth_In; lia).
  specialize (Hnum _ Hc).
  destruct (nth j r NaN) as [x|]; [| contradiction].
  unfold roll_mean. cbn [observations flat_map app length Nat.leb Nat.ltb
                         andb fsum fold_right INR].
  f_equal. lra.
Qed.

Lemma ma_persistence_window_1_witness :
  (shape0 three_days <> 0%nat
   /\ well_formed three_days = true /\ all_numeric three_days = true)
  /\ ma_persistence three_days 1
     = day_hbh_persistence three_days days_default.
Proof.
  assert (shape0 three_days <> 0%nat) as Hne by (cbn; lia).
  split; [repeat split; exact Hne |].
  exact (ma_persistence_window_1 three_days Hne eq_refl eq_refl).
Defined.

(** X15. Whatever the moving average returns is labelled with the
    last date of history and has one cell per column of history. *)
Theorem ma_persistence_forecast_shape (history : DataFrame) (window : Z)
    (d : Z) (cells : list float64) :
  ma_persistence history window = Ok (d, cells) ->
  last (index history) = Some d /\ length cells = shape1 history.
Proof.
  intros H.
  assert (0 <= window) as Hw.
  { unfold ma_persistence, rolling in H.
    destruct (Z.ltb_spec window 0); [discriminate | lia]. }
  destruct (last (body history)) as [[d' r]|] eqn:Hlast.
  - rewrite (ma_persistence_last history window d' r Hw Hlast) in H.
    injection H as <- <-. unfold index.
    rewrite last_map, Hlast, length_map, length_seq. now split.
  - apply last_None in Hlast. unfold ma_persistence, rolling in H.
    destruct (Z.ltb_spec window 0); [discriminate |].
    cbn [bind fst snd] in H. unfold iloc_row, rolling_mean, shape0 in H.
    cbn [body] in H. rewrite Hlast in H. cbn [imap length] in H.
    rewrite position_empty in H. discriminate.
Qed.

Lemma ma_persistence_forecast_shape_witness :
  ma_persistence two_days window_default = Ok (5, repeat NaN 24)
  /\ last (index two_days) = Some 5
  /\ length (repeat NaN 24) = shape1 two_days.
Proof.
  assert (ma_persistence two_days window_default = Ok (5, repeat NaN 24))
    as H by reflexivity.
  split; [exact H |].
  exact (ma_persistence_forecast_shape two_days window_default 5 _ H).
Defined.

(** X16. On a history without rows each of the three strategies
    raises [IndexError] (the moving average for any non-negative
    window). *)
Theorem strategies_empty_history (history : DataFrame) (days window : Z) :
  body history = [] -> 0 <= window ->
  day_hbh_persistence history days = Raise IndexError
  /\ ma_persistence history window = Raise IndexError
  /\ same_day_oya_persistence history = Raise IndexError.
Proof.
  intros Hb Hw. repeat split.
  - unfold day_hbh_persistence, iloc_row, shape0. rewrite Hb.
    cbn [length]. now rewrite position_empty.
  - unfold ma_persistence, rolling.
    destruct (Z.ltb_spec window 0); [lia |]. cbn [bind fst snd].
    unfold iloc_row, rolling_mean, shape0. cbn [body]. rewrite Hb.
    cbn [imap length]. now rewrite position_empty.
  - unfold same_day_oya_persistence.
    now rewrite (index_last_empty history Hb).
Qed.

Lemma strategies_empty_history_witness :
  let history : DataFrame := mkFrame hours [] in
  (body history = [] /\ 0 <= window_default)
  /\ day_hbh_persistence history days_default = Raise IndexError
  /\ ma_persistence history window_default = Raise IndexError
  /\ same_day_oya_persistence history = Raise IndexError.
Proof.
  intros history.
  assert (0 <= window_default) as Hw by (unfold window_default; lia).
  split; [split; [reflexivity | exact Hw] |].
  exact (strategies_empty_history history days_default window_default
           eq_refl Hw).
Defined.

(** ** A forecast with NaN *)

Lemma mapM_first_error {A B : Type} (f : A -> result B) (l : list A) (e : exn) :
  (forall x, In x l -> (exists b, f x = Ok b) \/ f x = Raise e) ->
  (exists x, In x l /\ f x = Raise e) ->
  mapM f l = Raise e.
Proof.
  induction l as [|x l IH]; intros Hall (x0 & Hin & Hx0); [destruct Hin |].
  cbn [mapM]. destruct (Hall x (or_introl eq_refl)) as [[b Hb] | Hx].
  - rewrite Hb. cbn [bind]. rewrite IH; [reflexivity | |].
    + intros y Hy. apply Hall. now right.
    + destruct Hin as [<- | Hin]; [congruence |]. now exists x0.
  - now rewrite Hx.
Qed.

Lemma mean_squared_error_cases (y_true y_pred : list float64) :
  (exists c, mean_squared_error y_true y_pred = Ok c)
  \/ mean_squared_error y_true y_pred = Raise ValueError.
Proof.
  unfold mean_squared_error.
  destruct (negb _); [now right |].
  destruct (Nat.eqb _ 0); [now right |].
  destruct (_ || _); [now right | left; eauto].
Qed.

Lemma has_nan_nth (cells : list float64) :
  has_nan cells = true ->
  exists k, (k < length cells)%nat /\ nth k cells NaN = NaN.
Proof.
  unfold has_nan. induction cells as [|c cells IH]; [discriminate |].
  cbn [existsb]. destruct c as [x|].
  - cbn [orb]. intros H. destruct (IH H) as (k & Hk & Hnth).
    exists (S k). cbn [length nth]. split; [lia | exact Hnth].
  - intros _. exists 0%nat. cbn [length nth]. split; [lia | reflexivity].
Qed.

Lemma has_nan_repeat (n : nat) : n <> 0%nat -> has_nan (repeat NaN n) = true.
Proof. destruct n; [contradiction | reflexivity]. Qed.

(** X17. When the forecast of the strategy on train holds a NaN
    (the moving average over a train shorter than its window, say) and test
    has a row, the evaluation raises [ValueError]; no NaN error is
    returned. *)
Theorem walk_forward_evaluation_nan_forecast (model : strategy)
    (train test : DataFrame) (model_name : string) (Y_hat : Z * list float64) :
  model train = Ok Y_hat ->
  length (snd Y_hat) = shape1 test ->
  has_nan (snd Y_hat) = true ->
  shape0 test <> 0%nat ->
  walk_forward_evaluation model train test model_name = Raise ValueError.
Proof.
  intros Hmodel Hwidth Hnan Hrows. unfold walk_forward_evaluation.
  rewrite (wf_loop_constant model test (seq 0 (shape0 test))
             (mk_wf_state (copy train) []) Y_hat);
    [| cbn [st_history]; now rewrite copy_id | apply Forall_seq_lt].
  cbn [bind st_predictions app]. rewrite length_seq, map_repeat.
  unfold frame_of_rows.
  assert (length (repeat (snd Y_hat) (shape0 test)) = length (index test))
    as Hlen by (unfold index, shape0; now rewrite repeat_length, length_map).
  rewrite Hlen, Nat.eqb_refl.
  assert (forallb (fun r => Nat.eqb (length r) (length (columns test)))
                  (repeat (snd Y_hat) (shape0 test)) = true) as ->.
  { apply forallb_forall. intros r Hr. apply repeat_spec in Hr. subst r.
    apply Nat.eqb_eq. exact Hwidth. }
  cbn [andb bind].
  set (P := mkFrame (columns test)
              (combine (index test) (repeat (snd Y_hat) (shape0 test)))).
  assert (forall j, map (fun r => nth j (snd r) NaN) (body P)
                    = repeat (nth j (snd Y_hat) NaN) (shape0 test)) as Hcol.
  { intros j. unfold P. cbn [body].
    rewrite <- (map_map snd (fun row => nth j row NaN)).
    rewrite map_snd_combine_rows by exact Hlen. apply map_repeat. }
  unfold calculate_errors.
  rewrite (mapM_first_error _ _ ValueError); [reflexivity | |].
  - intros j Hj. apply in_seq in Hj. unfold hour_error, iloc_col.
    unfold shape1 in *. cbn [P columns] in *.
    destruct (Nat.ltb_spec j (length (columns test))); [| lia].
    cbn [bind].
    destruct (mean_squared_error_cases
                (map (fun r => nth j (snd r) NaN) (body P))
                (map (fun r => nth j (snd r) NaN) (body test)))
      as [[c ->] | ->]; cbn [bind]; [left; eauto | now right].
  - destruct (has_nan_nth _ Hnan) as (k & Hk & Hnth).
    exists k. split; [apply in_seq; unfold P, shape1 in *; cbn [columns]; lia |].
    unfold hour_error, iloc_col. unfold P at 1, shape1. cbn [columns].
    fold (shape1 test).
    destruct (Nat.ltb_spec k (shape1 test)); [| lia]. cbn [bind].
    rewrite Hcol, Hnth. unfold mean_squared_error.
    rewrite repeat_length, length_map. fold (shape0 test).
    rewrite Nat.eqb_refl. cbn [negb].
    destruct (Nat.eqb_spec (shape0 test) 0); [contradiction |].
    now rewrite has_nan_repeat.
Qed.

Lemma walk_forward_evaluation_nan_forecast_witness :
  let ma : strategy := fun history => ma_persistence history window_default in
  (ma two_days = Ok (5, repeat NaN 24)
   /\ length (repeat NaN 24) = shape1 flat_day
   /\ has_nan (repeat NaN 24) = true
   /\ shape0 flat_day <> 0%nat)
  /\ walk_forward_evaluation ma two_days flat_day "ma_persistence"
     = Raise ValueError.
Proof.
  intros ma.
  assert (shape0 flat_day <> 0%nat) as Hrows by (cbn; lia).
  split; [repeat split; exact Hrows |].
  exact (walk_forward_evaluation_nan_forecast ma two_days flat_day
           "ma_persistence" (5, repeat NaN 24) eq_refl eq_refl eq_refl Hrows).
Defined.

(** ** The splitter at the ends of the table *)



(** ** The dataset *)

Lemma filter_filter_and {B : Type} (p q : B -> bool) (l : list B) :
  List.filter q (List.filter p l) = List.filter (fun x => p x && q x) l.
Proof.
  induction l as [|x l IH]; [reflexivity |].
  cbn [List.filter]. destruct (p x); cbn [andb List.filter];
    [destruct (q x) |]; now rewrite IH.
Qed.

Lemma monotonic_filter {A : Type} (rows : list (Z * list A))
    (p : Z * list A -> bool) :
  is_monotonic_increasing (map fst rows) = true ->
  is_monotonic_increasing (map fst (List.filter p rows)) = true.
Proof.
  induction rows as [|r rows IH]; intros Hm; [reflexivity |].
  cbn [map] in Hm. destruct (monotonic_cons _ _ Hm) as [Hall Htl].
  cbn [List.filter]. destruct (p r); [| now apply IH].
  cbn [map]. specialize (IH Htl).
  destruct (List.filter p rows) as [|r' rows'] eqn:Hf; [reflexivity |].
  cbn [map is_monotonic_increasing] in *. rewrite IH, andb_true_r.
  apply Z.leb_le. rewrite List.Forall_forall in Hall. apply Hall.
  apply in_map. apply (proj1 (filter_In p r' rows)). rewrite Hf. now left.
Qed.

(** On a chronological table a label slice from [start] keeps the rows
    dated [start] or later. *)
Lemma slice_from_filter {A : Type} (data : Frame Z A) (start : Z) :
  is_monotonic_increasing (index data) = true ->
  body (slice_from data start)
  = List.filter (fun r => start <=? fst r) (body data).
Proof.
  intros Hm. unfold slice_from, index in *. cbn [body].
  replace start with (start - 1 + 1) at 1 by lia.
  rewrite searchsorted_meet, skipn_searchsorted_right by exact Hm.
  apply filter_ext. intros r.
  destruct (Z.ltb_spec (start - 1) (fst r)), (Z.leb_spec start (fst r));
    reflexivity || lia.
Qed.

(** X19. When the file is read, windowed and renamed into a
    chronological table, the dataset is that table restricted to the rows
    dated from the first day of [start] to the last day of [stop], both
    included, with its columns. *)
Theorem get_persistence_dataset_range (RawFrame : Type)
    (read_csv : string -> string -> result RawFrame)
    (transform_to_windows : RawFrame -> result DataFrame)
    (rename_cols : DataFrame -> Z -> result DataFrame)
    (period : string -> result (Z * Z))
    (path index_col start stop : string) (shift : Z)
    (raw : RawFrame) (windows named : DataFrame) (from to : Z * Z) :
  read_csv "./data/cleaned_data/energy_loads_2015_2019.csv" index_col = Ok raw ->
  transform_to_windows raw = Ok windows ->
  rename_cols windows shift = Ok named ->
  period start = Ok from -> period stop = Ok to ->
  is_monotonic_increasing (index named) = true ->
  get_persistence_dataset RawFrame read_csv transform_to_windows rename_cols
    period path index_col start stop shift
  = Ok (mkFrame (columns named)
          (List.filter (fun r => (fst from <=? fst r) && (fst r <=? snd to))
                       (body named))).
Proof.
  intros Hread Hwin Hname Hfrom Hto Hm.
  unfold get_persistence_dataset, slice_between.
  rewrite Hread. cbn [bind]. rewrite Hwin. cbn [bind].
  rewrite Hname. cbn [bind]. rewrite Hfrom, Hto. cbn [bind].
  f_equal. unfold slice_to at 1. cbn [columns slice_from]. f_equal.
  assert (Hs := slice_from_filter named (fst from) Hm).
  unfold index at 1. rewrite firstn_searchsorted_right.
  - rewrite Hs. apply filter_filter_and.
  - rewrite Hs. now apply monotonic_filter.
Qed.

Lemma get_persistence_dataset_range_witness :
  let disk : string -> string -> result DataFrame :=
    fun _ _ => Ok year_end in
  let windows : DataFrame -> result DataFrame := fun raw => Ok raw in
  let rename : DataFrame -> Z -> result DataFrame := fun data _ => Ok data in
  let period : string -> result (Z * Z) :=
    fun s => if String.eqb s "start" then Ok (736694, 736694)
             else Ok (736695, 736695) in
  is_monotonic_increasing (index year_end) = true
  /\ get_persistence_dataset DataFrame disk windows rename period
       "unused.csv" "time" "start" "stop" 0
     = Ok (mkFrame hours [(736694, repeat (Num 6) 24);
                          (736695, repeat (Num 9) 24)]).
Proof.
  intros disk windows rename period. split; [reflexivity |].
  exact (get_persistence_dataset_range DataFrame disk windows rename period
           "unused.csv" "time" "start" "stop" 0 year_end year_end year_end
           (736694, 736694) (736695, 736695)
           eq_refl eq_refl eq_refl eq_refl eq_refl eq_refl).
Defined.

(** ** The runner *)

Lemma forecasts_loop_evaluated (model_set : list (string * strategy))
    (train test : DataFrame)
    (rs : list (Frame string float64 * list (list float64)))
    (errors : list (Frame string float64))
    (error_means : list (list (list float64))) :
  evaluated train test model_set rs ->
  forecasts_loop model_set train test errors error_means
  = Ok (errors ++ map fst rs, error_means ++ map snd rs).
Proof.
  intros Hev. revert errors error_means.
  induction Hev as [|[name f] r model_set rs Hr _ IH]; intros errors error_means.
  - cbn [forecasts_loop map]. now rewrite !app_nil_r.
  - cbn [forecasts_loop map fst snd] in *. rewrite Hr. cbn [bind].
    rewrite IH, <- !app_assoc. reflexivity.
Qed.

Lemma forecasts_loop_inv (model_set : list (string * strategy))
    (train test : DataFrame)
    (errors errors' : list (Frame string float64))
    (error_means error_means' : list (list (list float64))) :
  forecasts_loop model_set train test errors error_means
  = Ok (errors', error_means') ->
  exists rs, evaluated train test model_set rs
             /\ errors' = errors ++ map fst rs
             /\ error_means' = error_means ++ map snd rs.
Proof.
  revert errors error_means.
  induction model_set as [|[name f] model_set IH]; intros errors error_means H.
  - cbn [forecasts_loop] in H. injection H as <- <-.
    exists []. cbn [map]. rewrite !app_nil_r. repeat split. constructor.
  - cbn [forecasts_loop] in H. apply bind_Ok in H as (r & Hr & H).
    destruct (IH _ _ H) as (rs & Hev & -> & ->).
    exists (r :: rs). cbn [map]. rewrite <- !app_assoc.
    repeat split. constructor; [exact Hr | exact Hev].
Qed.

(** The first model that raises ends the loop with its exception. *)
Lemma forecasts_loop_raises (pre post : list (string * strategy))
    (name : string) (f : strategy) (train test : DataFrame) (e : exn)
    (rs : list (Frame string float64 * list (list float64)))
    (errors : list (Frame string float64))
    (error_means : list (list (list float64))) :
  evaluated train test pre rs ->
  walk_forward_evaluation f train test name = Raise e ->
  forecasts_loop (pre ++ (name, f) :: post) train test errors error_means
  = Raise e.
Proof.
  intros Hev He. revert errors error_means.
  induction Hev as [|[name' f'] r pre rs Hr _ IH]; intros errors error_means.
  - cbn [app forecasts_loop]. now rewrite He.
  - cbn [app forecasts_loop fst snd] in *. rewrite Hr. cbn [bind]. apply IH.
Qed.

Section RunnerFacts.
Variable RawFrame : Type.
Variable read_csv : string -> string -> result RawFrame.
Variable transform_to_windows : RawFrame -> result DataFrame.
Variable rename_cols : DataFrame -> Z -> result DataFrame.
Variable period : string -> result (Z * Z).

(** X20. Once the dataset is loaded, the runner returns exactly when
    the model set is not empty and every model's evaluation on the split at
    2017-12-31 returns; what it returns is the mean errors of the models,
    one each, in the order of the model set. *)
Theorem persistence_forecasts_means (data : DataFrame)
    (model_set : list (string * strategy))
    (error_means : list (list (list float64))) :
  get_persistence_dataset RawFrame read_csv transform_to_windows rename_cols
    period "./data/cleaned_data/energy_loads_2015_2019.csv" "time"
    "2015" "2018" 0 = Ok data ->
  (persistence_forecasts RawFrame read_csv transform_to_windows rename_cols
     period model_set = Ok error_means
   <-> model_set <> []
       /\ exists rs,
            evaluated (fst (train_test_split data split_date_default))
                      (snd (train_test_split data split_date_default))
                      model_set rs
            /\ error_means = map snd rs).
Proof.
  intros Hdata. unfold persistence_forecasts. rewrite Hdata. cbn [bind].
  split.
  - intros H. apply bind_Ok in H as ([errors means] & Hloop & H).
    cbn [fst snd] in H. apply bind_Ok in H as (tbl & Htbl & H).
    injection H as <-.
    apply forecasts_loop_inv in Hloop as (rs & Hev & -> & ->).
    cbn [app] in *. split; [| now exists rs].
    intros ->. inversion Hev; subst. discriminate Htbl.
  - intros (Hne & rs & Hev & ->).
    rewrite (forecasts_loop_evaluated _ _ _ rs) by exact Hev.
    cbn [bind app fst snd].
    destruct rs as [|r rs]; [inversion Hev; congruence |].
    reflexivity.
Qed.

(** X21. Once the dataset is loaded, the first model of the model
    set whose evaluation raises ends the run: the runner raises that
    exception and returns no mean error, neither of the models before it
    nor of those after. *)
Theorem persistence_forecasts_first_failure (data : DataFrame)
    (pre post : list (string * strategy)) (name : string) (f : strategy)
    (rs : list (Frame string float64 * list (list float64))) (e : exn) :
  get_persistence_dataset RawFrame read_csv transform_to_windows rename_cols
    period "./data/cleaned_data/energy_loads_2015_2019.csv" "time"
    "2015" "2018" 0 = Ok data ->
  evaluated (fst (train_test_split data split_date_default))
            (snd (train_test_split data split_date_default)) pre rs ->
  walk_forward_evaluation f
    (fst (train_test_split data split_date_default))
    (snd (train_test_split data split_date_default)) name = Raise e ->
  persistence_forecasts RawFrame read_csv transform_to_windows rename_cols
    period (pre ++ (name, f) :: post) = Raise e.
Proof.
  intros Hdata Hev He. unfold persistence_forecasts.
  rewrite Hdata. cbn [bind].
  now rewrite (forecasts_loop_raises pre post name f _ _ e rs [] [] Hev He).
Qed.
End RunnerFacts.

(** The previous-day strategy returns on the split of [year_end]. *)
Lemma walk_forward_evaluation_year_end (model_name : string) :
  exists r,
    walk_forward_evaluation prev_day
      (fst (train_test_split year_end split_date_default))
      (snd (train_test_split year_end split_date_default)) model_name = Ok r.
Proof.
  pose (test := mkFrame hours [(736695, repeat (Num 9) 24);
                               (736696, repeat (Num 12) 24)]).
  pose (P := mkFrame hours [(736695, repeat (Num 6) 24);
                            (736696, repeat (Num 6) 24)]).
  destruct (calculate_errors_returns P test model_name eq_refl)
    as (errors & error_mean & H).
  exists (errors, error_mean).
  change (walk_forward_evaluation prev_day
            (fst (train_test_split year_end split_date_default))
            (snd (train_test_split year_end split_date_default)) model_name)
    with (r <- calculate_errors P test model_name ;; Ok (fst r, snd r)).
  now rewrite H.
Qed.

Lemma persistence_forecasts_means_witness :
  let disk : string -> string -> result DataFrame :=
    fun _ _ => Ok year_end in
  let windows : DataFrame -> result DataFrame := fun raw => Ok raw in
  let rename : DataFrame -> Z -> result DataFrame := fun data _ => Ok data in
  let period : string -> result (Z * Z) := fun _ => Ok (736693, 736696) in
  get_persistence_dataset DataFrame disk windows rename period
    "./data/cleaned_data/energy_loads_2015_2019.csv" "time" "2015" "2018" 0
  = Ok year_end
  /\ exists error_means,
       persistence_forecasts DataFrame disk windows rename period
         [("prev_day_persistence", prev_day)] = Ok error_means
       /\ length error_means = 1%nat.
Proof.
  intros disk windows rename period. split; [reflexivity |].
  destruct (walk_forward_evaluation_year_end "prev_day_persistence")
    as [r Hr].
  exists (map snd [r]). split; [| reflexivity].
  apply (persistence_forecasts_means DataFrame disk windows rename period
           year_end [("prev_day_persistence", prev_day)] (map snd [r])
           eq_refl).
  split; [discriminate |]. exists [r]. split; [| reflexivity].
  constructor; [exact Hr | constructor].
Defined.

Lemma persistence_forecasts_first_failure_witness :
  let disk : string -> string -> result DataFrame :=
    fun _ _ => Ok year_end in
  let windows : DataFrame -> result DataFrame := fun raw => Ok raw in
  let rename : DataFrame -> Z -> result DataFrame := fun data _ => Ok data in
  let period : string -> result (Z * Z) := fun _ => Ok (736693, 736696) in
  get_persistence_dataset DataFrame disk windows rename period
    "./data/cleaned_data/energy_loads_2015_2019.csv" "time" "2015" "2018" 0
  = Ok year_end
  /\ walk_forward_evaluation
       (fun history => ma_persistence history window_default)
       (fst (train_test_split year_end split_date_default))
       (snd (train_test_split year_end split_date_default))
       "ma_persistence" = Raise ValueError
  /\ persistence_forecasts DataFrame disk windows rename period
       model_set_default = Raise ValueError.
Proof.
  intros disk windows rename period.
  split; [reflexivity |]. split; [reflexivity |].
  destruct (walk_forward_evaluation_year_end "prev_day_persistence")
    as [r Hr].
  apply (persistence_forecasts_first_failure DataFrame disk windows rename
           period year_end
           [("prev_day_persistence",
             fun history => day_hbh_persistence history days_default)]
           [("same_day_oya_persistence", same_day_oya_persistence)]
           "ma_persistence"
           (fun history => ma_persistence history window_default)
           [r] ValueError eq_refl).
  - constructor; [exact Hr | constructor].
  - reflexivity.
Defined.
